(** * dashboard.py: the SoJen.AI demo dashboard, one script run at a time

    Streamlit executes dashboard.py from top to bottom on every user
    interaction.  One such run is modelled as a function of
    - the session state left by the previous run ([option session]),
    - the widget values of this run ([widgets]),
    - the answers of the outside world ([world]: logo file, the three
      backend endpoints, the speech service),
    and produces the new session state together with the ordered list of
    everything the run did ([event]: elements put on the page and calls
    to outside services).

    Backend answers are decoded JSON, so the fields the script reads are
    arbitrary Python values ([pyval]); the Python operations the script
    applies to them ([dict.get], truthiness, [or], [float()], iteration,
    [str.capitalize], [str.strip]) are modelled with the exceptions they
    raise. *)

From Stdlib Require Import ZArith NArith String Ascii List Bool Lia Floats.
Import ListNotations.
Set Warnings "-register-all".
Open Scope string_scope.
Open Scope list_scope.

(** ** Python strings *)

(** A Python [str] is a sequence of Unicode code points. *)
Definition str := list N.

(** A literal of the script; only ASCII literals take part in its logic. *)
Definition lit (s : string) : str := map N_of_ascii (list_ascii_of_string s).
Coercion lit : string >-> str.

Definition str_eqb (a b : str) : bool :=
  if list_eq_dec N.eq_dec a b then true else false.

(** The code points [str.strip()] removes (those for which
    [str.isspace] holds). *)
Definition py_isspace (c : N) : bool :=
  ((9 <=? c) && (c <=? 13) || (28 <=? c) && (c <=? 32)
   || (c =? 133) || (c =? 160) || (c =? 5760)
   || (8192 <=? c) && (c <=? 8202)
   || (c =? 8232) || (c =? 8233) || (c =? 8239) || (c =? 8287)
   || (c =? 12288))%N.

Fixpoint lstrip (s : str) : str :=
  match s with
  | [] => []
  | c :: r => if py_isspace c then lstrip r else s
  end.

Definition rstrip (s : str) : str := rev (lstrip (rev s)).

(** [s.strip()] *)
Definition strip (s : str) : str := rstrip (lstrip s).

(** ** Python floats

    The script only moves floats around: it converts scores with
    [float(..)], uses the literal [0.0] as a default and tests values for
    truth or equality.  The float type is therefore an interface; nothing
    below depends on rounding. *)
Class PyFloat : Type := {
  pyfloat : Type;
  fzero : pyfloat;                          (* the literal 0.0 *)
  float_of_int : Z -> option pyfloat;       (* float(n); None: OverflowError *)
  float_of_str : str -> option pyfloat;     (* float(s); None: ValueError *)
  float_truth : pyfloat -> bool;            (* bool(x) *)
  float_eqb : pyfloat -> pyfloat -> bool;   (* x == y *)
  float_eq_int : pyfloat -> Z -> bool       (* x == n *)
}.

(** IEEE binary64 as an interpretation of the interface, used to run the
    model on concrete inputs.  The decimal parser behind [float(s)] is not
    part of it (every string is rejected); the concrete inputs below hold
    no numeric strings. *)
Definition binary64_of_int (z : Z) : option PrimFloat.float :=
  match SpecFloat.binary_normalize 53 1024 z 0 false with
  | SpecFloat.S754_infinity _ => None
  | sf => Some (SF2Prim sf)
  end.

Definition binary64_eq_int (x : PrimFloat.float) (z : Z) : bool :=
  match Prim2SF x with
  | SpecFloat.S754_zero _ => (z =? 0)%Z
  | SpecFloat.S754_finite s m e =>
      let v := if s then Z.neg m else Z.pos m in
      if (0 <=? e)%Z then (v * 2 ^ e =? z)%Z else (v =? z * 2 ^ (- e))%Z
  | _ => false
  end.

Definition binary64 : PyFloat := {|
  pyfloat := PrimFloat.float;
  fzero := 0%float;
  float_of_int := binary64_of_int;
  float_of_str := fun _ => None;
  float_truth := fun x => negb (PrimFloat.eqb x 0%float);
  float_eqb := PrimFloat.eqb;
  float_eq_int := binary64_eq_int |}.

(** ** Exceptions *)

Inductive exn : Type :=
| AttributeError
| TypeError
| ValueError
| OverflowError
| ServiceError (msg : str).   (* raised inside requests or gTTS *)

Inductive res (A : Type) : Type :=
| Ok (a : A)
| Raise (e : exn).
Arguments Ok {A} a.
Arguments Raise {A} e.

Section Dashboard.

Context {F : PyFloat}.

(** ** Python values *)

(** What [resp.json()] yields, i.e. [Any] in the script's annotations:
    JSON objects decode to dicts with string keys, in document order. *)
Inductive pyval : Type :=
| PNone
| PBool (b : bool)
| PInt (n : Z)
| PFloat (x : pyfloat)
| PStr (s : str)
| PList (l : list pyval)
| PDict (d : list (str * pyval)).

(** [Dict[str, Any]] *)
Definition dict := list (str * pyval).

(** [bool(v)] *)
Definition py_truthy (v : pyval) : bool :=
  match v with
  | PNone => false
  | PBool b => b
  | PInt n => negb (n =? 0)%Z
  | PFloat x => float_truth x
  | PStr s => match s with [] => false | _ => true end
  | PList l => match l with [] => false | _ => true end
  | PDict d => match d with [] => false | _ => true end
  end.

(** [a or b] *)
Definition py_or (a b : pyval) : pyval := if py_truthy a then a else b.

(** [v == "literal"] *)
Definition py_eq_str (v : pyval) (s : str) : bool :=
  match v with
  | PStr t => str_eqb t s
  | _ => false
  end.

(** Lists and dicts are unhashable: using one as a dict key raises. *)
Definition hashable (v : pyval) : bool :=
  match v with
  | PList _ | PDict _ => false
  | _ => true
  end.

(** [a == b] on hashable values, as dict lookup compares keys:
    [True == 1 == 1.0], strings only equal strings, [None] only [None]. *)
Definition key_eqb (a b : pyval) : bool :=
  match a, b with
  | PNone, PNone => true
  | PStr s, PStr t => str_eqb s t
  | PBool x, PBool y => Bool.eqb x y
  | PBool x, PInt n | PInt n, PBool x => (n =? (if x then 1 else 0))%Z
  | PBool x, PFloat y | PFloat y, PBool x => float_eq_int y (if x then 1 else 0)
  | PInt n, PInt m => (n =? m)%Z
  | PInt n, PFloat y | PFloat y, PInt n => float_eq_int y n
  | PFloat x, PFloat y => float_eqb x y
  | _, _ => false
  end.

Fixpoint dict_lookup (k : str) (d : dict) : option pyval :=
  match d with
  | [] => None
  | (k', v) :: r => if str_eqb k' k then Some v else dict_lookup k r
  end.

(** [d.get(k, default)] for a dict [d] and a string key. *)
Definition dict_get (d : dict) (k : str) (default : pyval) : pyval :=
  match dict_lookup k d with
  | Some v => v
  | None => default
  end.

(** [obj.get(key, default)] for arbitrary [obj] and [key]: the attribute
    exists on dicts only, and the key is hashed before it is looked up. *)
Definition py_get (obj key default : pyval) : res pyval :=
  match obj with
  | PDict d =>
      match key with
      | PStr k => Ok (dict_get d k default)
      | PList _ | PDict _ => Raise TypeError
      | _ => Ok default          (* no string key equals a non-string *)
      end
  | _ => Raise AttributeError
  end.

(** [list(obj.keys())] *)
Definition py_keys (obj : pyval) : res pyval :=
  match obj with
  | PDict d => Ok (PList (map (fun kv => PStr (fst kv)) d))
  | _ => Raise AttributeError
  end.

(** The elements [for x in v] visits. *)
Definition py_iter (v : pyval) : res (list pyval) :=
  match v with
  | PList l => Ok l
  | PStr s => Ok (map (fun c => PStr [c]) s)
  | PDict d => Ok (map (fun kv => PStr (fst kv)) d)
  | _ => Raise TypeError
  end.

(** [float(v)] *)
Definition py_float (v : pyval) : res pyfloat :=
  match v with
  | PFloat x => Ok x
  | PInt n =>
      match float_of_int n with Some x => Ok x | None => Raise OverflowError end
  | PBool b =>
      match float_of_int (if b then 1 else 0) with
      | Some x => Ok x
      | None => Raise OverflowError
      end
  | PStr s =>
      match float_of_str s with Some x => Ok x | None => Raise ValueError end
  | _ => Raise TypeError
  end.

(** The receiver of [v.capitalize()]: the method exists on strings only.
    The capitalised text itself is kept symbolic in the events. *)
Definition py_capitalize (v : pyval) : res str :=
  match v with
  | PStr s => Ok s
  | _ => Raise AttributeError
  end.

(** ** What a run does: page elements and outside calls *)

(** Page furniture whose text depends on no input. *)
Inductive block : Type :=
| about_this_api | models | backend_status | api_details | legal_notice
| page_title | voice_enabled_badge | welcome | how_to_use | input_header
| rule                          (* st.markdown("---") *)
| debug_inside_expander | original_text_header
| scores_header | visualization_header | no_category_scores
| model_metadata_expander | rewrite_section_header | moderator_name
| run_rewrite_hint | debug_rewrite_handler
| persona_header | explanation_header | no_detailed_advisory
| suggested_rewrite_header | copy_rewrite_caption | advisory_only_caption
| hear_header | generating_audio_caption
| what_is_not_shown | copyright_footer.

(** The closing sentence of the mitigation panel. *)
Inductive mode_text : Type :=
| advisory_mode
| rewrite_mode
| not_proposed_a_rewrite (m_severity : pyval).

Inductive event : Type :=
(* calls to outside services *)
| GET_health
| POST_infer (texts : list str)          (* json = {"texts": texts} *)
| POST_mitigate (text : pyval)           (* json = {"text": text} *)
| gTTS (text : pyval)
(* sidebar and page head *)
| st_static (b : block)
| st_logo (small : bool)
| st_success_api_ok (device : pyval)
| st_error_health (e : exn)
| device_badge (badge_color badge_text : string)
| performance_badge (perf_color perf_label : string)
| performance_unknown
(* input *)
| st_text_area (value : str)
| st_button_analyze
| st_warning_no_text
| st_spinner (what : string)
| st_error_infer (e : exn)
(* results *)
| model_device (device : pyval)
| st_expander (number : nat) (top_category : pyval) (expanded : bool)
| st_write (v : pyval)
| severity_line (severity : str) (implicit_label : string)
| st_dataframe (category : pyval) (score : list pyfloat)
| st_bar_chart (category : pyval) (score : list pyfloat)
| st_json (v : pyval)
| st_button_run_rewrite (idx : nat)
(* mitigation panel *)
| st_error_mitigate (e : exn)
| severity_badge (badge_color : pyval) (sev_label : str)
                 (primary_cat : option pyval)
| st_markdown (v : pyval)
| st_code (v : pyval)
| st_audio
| st_error_voice (e : exn)
| mode_explanation (m : mode_text).

(** ** Inputs of a run *)

(** [st.session_state] once initialised (lines 93-97). *)
Record session : Type := {
  infer_results : pyval;
  type_order : pyval;
  device : pyval;
  backend_device : pyval }.

Definition initial_session : session := {|
  infer_results := PNone;
  type_order := PList [];
  device := PNone;
  backend_device := PNone |}.

(** [if "infer_results" not in st.session_state: ...] *)
Definition init_session (prev : option session) : session :=
  match prev with
  | Some s => s
  | None => initial_session
  end.

(** The widget values Streamlit hands to this run. *)
Record widgets : Type := {
  text_single : str;
  run_button : bool;
  rewrite_button : nat -> bool }.   (* st.button(.., key=f"rewrite_{idx}") *)

(** The outside world as this run meets it.  The three backend helpers
    return [Dict[str, Any]] or raise; speech synthesis returns audio
    bytes (not modelled) or raises. *)
Record world : Type := {
  load_logo : bool;                          (* load_logo() is not None *)
  call_health : res dict;
  call_infer : list str -> res dict;
  call_mitigate : nat -> pyval -> res dict;  (* by result index *)
  synthesize : nat -> pyval -> res unit }.

(** ** Rendering with exceptions

    An uncaught exception stops the run; what was put on the page before
    it stays there. *)
Definition render (A : Type) : Type := (res A * list event)%type.

Definition ret {A} (a : A) : render A := (Ok a, []).

Definition bind {A B} (m : render A) (f : A -> render B) : render B :=
  match m with
  | (Ok a, t) => let (r, t') := f a in (r, t ++ t')
  | (Raise e, t) => (Raise e, t)
  end.

Definition emit (e : event) : render unit := (Ok tt, [e]).

Definition lift {A} (r : res A) : render A := (r, []).

Notation "x <- m ;; k" := (bind m (fun x => k))
  (at level 100, m at next level, right associativity).
Notation "m ;;; k" := (bind m (fun _ => k))
  (at level 100, right associativity).

Fixpoint map_res {A B} (f : A -> res B) (l : list A) : res (list B) :=
  match l with
  | [] => Ok []
  | a :: r =>
      match f a with
      | Raise e => Raise e
      | Ok b =>
          match map_res f r with
          | Raise e => Raise e
          | Ok bs => Ok (b :: bs)
          end
      end
  end.

(** ** Sidebar (lines 103-184) *)

Definition set_backend_device (s : session) (d : pyval) : session := {|
  infer_results := infer_results s;
  type_order := type_order s;
  device := device s;
  backend_device := d |}.

Definition sidebar (w : world) (s : session) : session * list event :=
  let '(health, device, s', status) :=
    match call_health w with
    | Ok h =>
        let device := dict_get h "device" (PStr "n/a") in
        (Some h, device, set_backend_device s device,
         [st_success_api_ok device])
    | Raise e => (None, PStr "n/a", s, [st_error_health e])
    end in
  let badge :=
    match health with
    | Some _ =>
        [device_badge
           (if py_eq_str device "cuda" then "#52c41a" else "#d9d9d9")
           (if py_eq_str device "cuda" then "GPU Acceleration"
            else "CPU Mode")]
    | None => []
    end in
  (s',
   (if load_logo w then [st_logo false] else [])
   ++ [st_static about_this_api; st_static models;
       st_static backend_status; GET_health]
   ++ status ++ badge
   ++ [st_static api_details; st_static legal_notice]).

(** ** Title and performance indicator (lines 193-256) *)

Definition performance_indicator (s : session) : event :=
  let perf_device := py_or (device s) (backend_device s) in
  if py_truthy perf_device then
    performance_badge
      (if py_eq_str perf_device "cuda" then "#52c41a" else "#faad14")
      (if py_eq_str perf_device "cuda" then "Ultra-fast GPU Mode"
       else "Standard CPU Mode")
  else performance_unknown.

Definition page_head (s : session) : list event :=
  [st_static page_title; st_static voice_enabled_badge;
   performance_indicator s; st_static welcome; st_static how_to_use].

(** ** Input and the Analyze handler (lines 314-345) *)

(** [texts = [text_single] if text_single.strip() else []] *)
Definition texts (text_single : str) : list str :=
  match strip text_single with
  | [] => []
  | _ => [text_single]
  end.

Definition store_infer (s : session) (infer_res : dict) : session := {|
  infer_results := dict_get infer_res "results" (PList []);
  type_order := dict_get infer_res "type_order" (PList []);
  device := dict_get infer_res "device" (PStr "unknown");
  backend_device := backend_device s |}.

Definition analyze (w : world) (i : widgets) (s : session)
  : session * list event :=
  let widgets_shown :=
    [st_static input_header; st_text_area (text_single i);
     st_button_analyze] in
  if run_button i then
    match texts (text_single i) with
    | [] => (s, widgets_shown ++ [st_warning_no_text])
    | ts =>
        match call_infer w ts with
        | Raise e =>
            (s, widgets_shown
                ++ [st_spinner "Calling /v1/infer..."; POST_infer ts;
                    st_error_infer e])
        | Ok infer_res =>
            (store_infer s infer_res,
             widgets_shown
             ++ [st_spinner "Calling /v1/infer..."; POST_infer ts])
        end
    end
  else (s, widgets_shown).

(** ** One result (lines 359-575) *)

(** The two shapes the variable [scores_ordered] takes: the value read
    from the result, or the dict built by the comprehension of line 375,
    whose keys are the categories themselves and whose values are floats. *)
Inductive score_map : Type :=
| given (v : pyval)
| aligned (m : list (pyval * pyfloat)).

(** [m[k] = x] on the comprehension's dict: a key equal to [k] keeps its
    place and takes the new value. *)
Fixpoint aligned_set (k : pyval) (x : pyfloat) (m : list (pyval * pyfloat))
  : list (pyval * pyfloat) :=
  match m with
  | [] => [(k, x)]
  | (k', x') :: r =>
      if key_eqb k' k then (k', x) :: r else (k', x') :: aligned_set k x r
  end.

Fixpoint aligned_lookup (k : pyval) (m : list (pyval * pyfloat))
  : option pyfloat :=
  match m with
  | [] => None
  | (k', x) :: r => if key_eqb k' k then Some x else aligned_lookup k r
  end.

(** [{cat: float(raw_scores.get(cat, 0.0)) for cat in type_order}],
    continued from the entries [acc] already made. *)
Fixpoint align_scores (raw_scores : pyval) (cats : list pyval)
  (acc : list (pyval * pyfloat)) : res (list (pyval * pyfloat)) :=
  match cats with
  | [] => Ok acc
  | cat :: r =>
      match py_get raw_scores cat (PFloat fzero) with
      | Raise e => Raise e
      | Ok v =>
          match py_float v with
          | Raise e => Raise e
          | Ok x => align_scores raw_scores r (aligned_set cat x acc)
          end
      end
  end.

(** [float(scores_ordered.get(cat, 0.0))] *)
Definition score_of (scores_ordered : score_map) (cat : pyval)
  : res pyfloat :=
  match scores_ordered with
  | given v =>
      match py_get v cat (PFloat fzero) with
      | Raise e => Raise e
      | Ok x => py_float x
      end
  | aligned m =>
      if hashable cat then
        Ok (match aligned_lookup cat m with Some x => x | None => fzero end)
      else Raise TypeError
  end.

(** [implicit_map] (lines 379-383) *)
Definition implicit_map : list (Z * string) :=
  [(0%Z, "neutral / none"); (1%Z, "explicit"); (2%Z, "implicit")].

Fixpoint implicit_lookup (flag : pyval) (m : list (Z * string))
  : option string :=
  match m with
  | [] => None
  | (k, label) :: r =>
      if key_eqb (PInt k) flag then Some label else implicit_lookup flag r
  end.

(** [implicit_map.get(implicit_flag, "unknown")] *)
Definition implicit_label (implicit_flag : pyval) : res string :=
  if hashable implicit_flag then
    Ok (match implicit_lookup implicit_flag implicit_map with
        | Some label => label
        | None => "unknown"
        end)
  else Raise TypeError.

(** The dict of lines 469-474 and its [.get(m_severity, "#d9d9d9")]. *)
Definition badge_colors : pyval :=
  PDict [("high" : str, PStr "#ff4d4f"); ("medium" : str, PStr "#faad14");
         ("low" : str, PStr "#52c41a"); ("none" : str, PStr "#d9d9d9")].

Definition badge_color (m_severity : pyval) : res pyval :=
  py_get badge_colors m_severity (PStr "#d9d9d9").

(** The inline audio block (lines 539-552); every exception raised while
    synthesising is caught and reported. *)
Definition voice (w : world) (idx : nat) (rewritten advisory : pyval)
  : render unit :=
  let spoken_text := py_or rewritten advisory in
  if py_truthy spoken_text then
    emit (st_static hear_header) ;;;
    emit (st_static generating_audio_caption) ;;;
    emit (gTTS spoken_text) ;;;
    match synthesize w idx spoken_text with
    | Ok _ => emit st_audio
    | Raise e => emit (st_error_voice e)
    end
  else ret tt.

(** The [else:] branch of the Run Rewrite handler (lines 460-574): what
    is shown for the answer [mit] of /v1/mitigate. *)
Definition render_mitigation (w : world) (idx : nat)
  (severity top_label : pyval) (mit : dict) : render unit :=
  let mode := dict_get mit "mode" (PStr "rewrite") in
  let m_severity := dict_get mit "severity" severity in
  let advisory := dict_get mit "advisory" (PStr "") in
  let rewritten := dict_get mit "rewritten" PNone in
  let mit_meta := py_or (dict_get mit "meta" (PDict [])) (PDict []) in
  primary_cat <- lift (py_get mit_meta (PStr "top_label") top_label) ;;
  sev_label <- lift (py_capitalize m_severity) ;;
  color <- lift (badge_color m_severity) ;;
  emit (severity_badge color sev_label
          (if py_truthy primary_cat then Some primary_cat else None)) ;;;
  emit (st_static persona_header) ;;;
  emit (st_static explanation_header) ;;;
  (if py_truthy advisory then emit (st_markdown advisory)
   else emit (st_static no_detailed_advisory)) ;;;
  (if py_truthy rewritten then
     emit (st_static suggested_rewrite_header) ;;;
     emit (st_code rewritten) ;;;
     emit (st_static copy_rewrite_caption)
   else emit (st_static advisory_only_caption)) ;;;
  voice w idx rewritten advisory ;;;
  (if py_eq_str mode "advisory" then emit (mode_explanation advisory_mode)
   else if py_eq_str mode "rewrite" then emit (mode_explanation rewrite_mode)
   else emit (mode_explanation (not_proposed_a_rewrite m_severity))).

(** The Run Rewrite button and its handler (lines 451-574). *)
Definition run_rewrite (w : world) (i : widgets) (idx : nat)
  (text severity top_label : pyval) : render unit :=
  emit (st_button_run_rewrite idx) ;;;
  if rewrite_button i idx then
    emit (st_static debug_rewrite_handler) ;;;
    emit (st_spinner "Calling /v1/mitigate...") ;;;
    emit (POST_mitigate text) ;;;
    match call_mitigate w idx text with
    | Raise e => emit (st_error_mitigate e)
    | Ok mit => render_mitigation w idx severity top_label mit
    end
  else ret tt.

(** The score table and chart (lines 401-425), for the category list and
    score mapping the loop body has settled on.  The events record the
    two columns handed to [pd.DataFrame]; pandas and Streamlit are taken
    to accept them. *)
Definition score_table (type_order : pyval) (scores_ordered : score_map)
  : render unit :=
  if py_truthy type_order then
    cats <- lift (py_iter type_order) ;;
    score <- lift (map_res (score_of scores_ordered) cats) ;;
    emit (st_static scores_header) ;;;
    emit (st_dataframe type_order score) ;;;
    emit (st_static visualization_header) ;;;
    emit (st_bar_chart type_order score)
  else emit (st_static no_category_scores).

(** One iteration of [for idx, item in enumerate(results)].  The
    variable [type_order] is read and possibly rebound by the body; its
    value after the iteration is returned for the next one. *)
Definition render_item (w : world) (i : widgets) (idx : nat)
  (type_order item : pyval) : render pyval :=
  text <- lift (py_get item (PStr "text") (PStr "")) ;;
  so <- lift (py_get item (PStr "scores_ordered") PNone) ;;
  let scores_ordered := py_or so (PDict []) in
  rs <- lift (py_get item (PStr "scores") PNone) ;;
  let raw_scores := py_or rs (PDict []) in
  m <- lift (py_get item (PStr "meta") (PDict [])) ;;
  let meta := py_or m (PDict []) in
  sm <- lift (py_get meta (PStr "severity_meta") (PDict [])) ;;
  let sev_meta := py_or sm (PDict []) in
  item_top_label <- lift (py_get item (PStr "top_label") PNone) ;;
  top_label <- lift (py_get sev_meta (PStr "top_label") item_top_label) ;;
  severity <- lift (py_get item (PStr "severity") (PStr "none")) ;;
  type_order <- lift (if py_truthy type_order then Ok type_order
                      else py_keys raw_scores) ;;
  scores_ordered <-
    lift (if negb (py_truthy scores_ordered) && py_truthy type_order then
            match py_iter type_order with
            | Raise e => Raise e
            | Ok cats =>
                match align_scores raw_scores cats [] with
                | Raise e => Raise e
                | Ok m => Ok (aligned m)
                end
            end
          else Ok (given scores_ordered)) ;;
  implicit_flag <- lift (py_get sev_meta (PStr "implicit_explicit") (PInt 0)) ;;
  label <- lift (implicit_label implicit_flag) ;;
  emit (st_expander (idx + 1) (py_or top_label (PStr "none"))
          (Nat.eqb idx 0)) ;;;
  emit (st_static debug_inside_expander) ;;;
  emit (st_static original_text_header) ;;;
  emit (st_write text) ;;;
  sev_display <- lift (py_capitalize severity) ;;
  emit (severity_line sev_display label) ;;;
  score_table type_order scores_ordered ;;;
  emit (st_static model_metadata_expander) ;;;
  emit (st_json meta) ;;;
  emit (st_static rule) ;;;
  emit (st_static rewrite_section_header) ;;;
  (if load_logo w then emit (st_logo true)
   else emit (st_static moderator_name)) ;;;
  emit (st_static run_rewrite_hint) ;;;
  run_rewrite w i idx text severity top_label ;;;
  ret type_order.

Fixpoint results_loop (w : world) (i : widgets) (idx : nat)
  (type_order : pyval) (items : list pyval) : render unit :=
  match items with
  | [] => ret tt
  | item :: rest =>
      type_order <- render_item w i idx type_order item ;;
      results_loop w i (S idx) type_order rest
  end.

(** The results section (lines 350-575) for the session the Analyze
    handler left. *)
Definition results_section (w : world) (i : widgets) (s : session)
  : render unit :=
  let device := device s in
  let type_order := type_order s in
  let results := infer_results s in
  if py_truthy results then
    emit (st_static rule) ;;;
    emit (model_device device) ;;;
    emit (st_static rule) ;;;
    items <- lift (py_iter results) ;;
    results_loop w i 0 type_order items
  else ret tt.

(** ** The whole run *)

Definition page_foot : list event :=
  [st_static what_is_not_shown; st_static copyright_footer].

(** The outcome of the run ([Raise]: an uncaught exception ended it), the
    session state it leaves and everything it did, in order. *)
Definition script (w : world) (i : widgets) (prev : option session)
  : res unit * session * list event :=
  let s0 := init_session prev in
  let (s1, side) := sidebar w s0 in
  let head := page_head s1 in
  let (s2, input) := analyze w i s1 in
  let (r, shown) := results_section w i s2 in
  match r with
  | Ok _ => (Ok tt, s2, side ++ head ++ input ++ shown ++ page_foot)
  | Raise e => (Raise e, s2, side ++ head ++ input ++ shown)
  end.

(** ** Reading a trace *)

Fixpoint infer_calls (t : list event) : list (list str) :=
  match t with
  | [] => []
  | POST_infer ts :: r => ts :: infer_calls r
  | _ :: r => infer_calls r
  end.

Fixpoint speech_calls (t : list event) : list pyval :=
  match t with
  | [] => []
  | gTTS text :: r => text :: speech_calls r
  | _ :: r => speech_calls r
  end.

(** The score tables shown, as the two columns handed to the table. *)
Fixpoint dataframes (t : list event) : list (pyval * list pyfloat) :=
  match t with
  | [] => []
  | st_dataframe category score :: r => (category, score) :: dataframes r
  | _ :: r => dataframes r
  end.

(** The rows of a table whose category column is a list. *)
Definition table_rows (category : pyval) (score : list pyfloat)
  : list (pyval * pyfloat) :=
  match category with
  | PList cats => combine cats score
  | _ => []
  end.

(** Events that only the sidebar, the page head or the input section
    produce; nothing below the Analyze handler emits them. *)
Definition above_results (e : event) : bool :=
  match e with
  | GET_health | POST_infer _ | st_success_api_ok _ | st_error_health _
  | device_badge _ _ | performance_badge _ _ | performance_unknown
  | st_text_area _ | st_button_analyze | st_warning_no_text
  | st_error_infer _ => true
  | _ => false
  end.

(** Events of the mitigation panel. *)
Definition of_mitigation (e : event) : bool :=
  match e with
  | POST_mitigate _ | gTTS _ | st_error_mitigate _ | severity_badge _ _ _
  | st_markdown _ | st_code _ | st_audio | st_error_voice _
  | mode_explanation _ | st_button_run_rewrite _ | st_spinner _
  | st_static _ => true
  | _ => false
  end.

(** [only ok m]: every event of [m] satisfies [ok]. *)
Definition only {A} (ok : event -> bool) (m : render A) : Prop :=
  forallb ok (snd m) = true.

End Dashboard.

(** * Properties *)

Section Facts.

Context {F : PyFloat}.

(** ** Strings *)

Lemma str_eqb_eq (a b : str) : str_eqb a b = true <-> a = b.
Proof.
  unfold str_eqb. destruct (list_eq_dec N.eq_dec a b); split; congruence.
Qed.

Lemma str_eqb_neq (a b : str) : str_eqb a b = false <-> a <> b.
Proof.
  unfold str_eqb. destruct (list_eq_dec N.eq_dec a b); split; congruence.
Qed.

Lemma lstrip_nil (s : str) : lstrip s = [] <-> forallb py_isspace s = true.
Proof.
  induction s as [|c r IH]; simpl.
  - tauto.
  - destruct (py_isspace c); simpl; [exact IH | split; discriminate].
Qed.

Lemma lstrip_head (s : str) c r : lstrip s = c :: r -> py_isspace c = false.
Proof.
  induction s as [|a s IH]; simpl; [discriminate|].
  destruct (py_isspace a) eqn:E; [exact IH | congruence].
Qed.

Lemma forallb_rev {A} (f : A -> bool) (l : list A) :
  forallb f (rev l) = forallb f l.
Proof.
  induction l as [|a l IH]; simpl; [reflexivity|].
  rewrite forallb_app, IH. simpl. rewrite andb_true_r. apply andb_comm.
Qed.

(** Trimming leaves nothing exactly when the text is empty or made of
    whitespace only. *)
Lemma strip_nil (s : str) : strip s = [] <-> forallb py_isspace s = true.
Proof.
  unfold strip, rstrip. rewrite <- lstrip_nil. split.
  - intros H. destruct (lstrip s) as [|c r] eqn:E; [reflexivity|].
    assert (H' : lstrip (rev (c :: r)) = []).
    { rewrite <- (rev_involutive (lstrip (rev (c :: r)))), H. reflexivity. }
    apply lstrip_nil in H'. rewrite forallb_rev in H'. simpl in H'.
    apply lstrip_head in E. rewrite E in H'. discriminate.
  - intros ->. reflexivity.
Qed.

Lemma texts_blank (s : str) : forallb py_isspace s = true -> texts s = [].
Proof. intros H. unfold texts. now rewrite (proj2 (strip_nil s) H). Qed.

Lemma texts_nonblank (s : str) : strip s <> [] -> texts s = [s].
Proof. intros H. unfold texts. destruct (strip s); congruence. Qed.

(** ** Values *)

Lemma py_eq_str_true (v : pyval) (s : str) :
  py_eq_str v s = true <-> v = PStr s.
Proof.
  destruct v; simpl; try (split; [discriminate | congruence]).
  rewrite str_eqb_eq. split; congruence.
Qed.

Lemma py_eq_str_false (v : pyval) (s : str) :
  py_eq_str v s = false <-> v <> PStr s.
Proof.
  rewrite <- py_eq_str_true. destruct (py_eq_str v s); split; congruence.
Qed.

Lemma py_truthy_str (s : str) : py_truthy (PStr s) = true <-> s <> [].
Proof. destruct s; simpl; split; congruence. Qed.

Lemma key_eqb_str (k : pyval) (c : str) :
  key_eqb k (PStr c) = true -> k = PStr c.
Proof.
  destruct k; simpl; try discriminate.
  intros H. apply str_eqb_eq in H. now subst.
Qed.

(** ** Traces *)

Lemma infer_calls_app (a b : list event) :
  infer_calls (a ++ b) = infer_calls a ++ infer_calls b.
Proof.
  induction a as [|e a IH]; simpl; [reflexivity|].
  destruct e; simpl; now rewrite ?IH.
Qed.

Lemma speech_calls_app (a b : list event) :
  speech_calls (a ++ b) = speech_calls a ++ speech_calls b.
Proof.
  induction a as [|e a IH]; simpl; [reflexivity|].
  destruct e; simpl; now rewrite ?IH.
Qed.

Lemma dataframes_app (a b : list event) :
  dataframes (a ++ b) = dataframes a ++ dataframes b.
Proof.
  induction a as [|e a IH]; simpl; [reflexivity|].
  destruct e; simpl; now rewrite ?IH.
Qed.

Lemma fst_bind {A B} (m : render A) (k : A -> render B) :
  fst (bind m k) =
    match fst m with
    | Ok a => fst (k a)
    | Raise e => Raise e
    end.
Proof. destruct m as [[a|e] t]; simpl; [|reflexivity]. now destruct (k a). Qed.

Lemma snd_bind {A B} (m : render A) (k : A -> render B) :
  snd (bind m k) =
    snd m ++ match fst m with
             | Ok a => snd (k a)
             | Raise e => []
             end.
Proof.
  destruct m as [[a|e] t]; simpl; [|now rewrite app_nil_r]. now destruct (k a).
Qed.

Lemma py_get_dict_str (d : dict) (k : str) (v : pyval) :
  py_get (PDict d) (PStr k) v = Ok (dict_get d k v).
Proof. reflexivity. Qed.

Lemma only_ret {A} ok (a : A) : only ok (ret a).
Proof. reflexivity. Qed.

Lemma only_lift {A} ok (r : res A) : only ok (lift r).
Proof. reflexivity. Qed.

Lemma only_emit ok (e : event) : ok e = true -> only ok (emit e).
Proof. unfold only. simpl. now intros ->. Qed.

Lemma only_bind {A B} ok (m : render A) (k : A -> render B) :
  only ok m -> (forall a, only ok (k a)) -> only ok (bind m k).
Proof.
  unfold only, bind. destruct m as [[a|e] t]; simpl; intros Hm Hk; [|exact Hm].
  specialize (Hk a). destruct (k a) as [r t']. simpl in *.
  now rewrite forallb_app, Hm, Hk.
Qed.

Lemma only_weaken {A} (ok ok' : event -> bool) (m : render A) :
  (forall e, ok e = true -> ok' e = true) -> only ok m -> only ok' m.
Proof.
  unfold only. intros H. induction (snd m) as [|e t IH]; simpl; [easy|].
  rewrite !andb_true_iff. intros [He Ht]. auto.
Qed.

End Facts.

Ltac only_step :=
  first
    [ apply only_ret
    | apply only_lift
    | apply only_emit; reflexivity
    | apply only_bind; [ | intros ? ]
    | match goal with
      | |- only _ (if ?b then _ else _) => destruct b
      | |- only _ (match ?x with _ => _ end) => destruct x
      end ].

Section Run.

Context {F : PyFloat}.

(** ** The results section emits nothing of what stands above it *)

Definition below (e : event) : bool := negb (above_results e).

Lemma only_voice ok (w : world) idx rewritten advisory :
  (forall e, of_mitigation e = true -> ok e = true) ->
  only ok (voice w idx rewritten advisory).
Proof.
  intros H. apply (only_weaken of_mitigation); [exact H|].
  unfold voice. repeat only_step.
Qed.

Lemma only_render_mitigation (w : world) idx severity top_label mit :
  only of_mitigation (render_mitigation w idx severity top_label mit).
Proof.
  unfold render_mitigation.
  repeat first [ apply only_voice; trivial | only_step ].
Qed.

Lemma only_run_rewrite (w : world) i idx text severity top_label :
  only of_mitigation (run_rewrite w i idx text severity top_label).
Proof.
  unfold run_rewrite.
  repeat first [ apply only_render_mitigation | only_step ].
Qed.

Lemma of_mitigation_below (e : event) : of_mitigation e = true -> below e = true.
Proof. unfold below. destruct e; simpl; congruence. Qed.

Lemma only_score_table type_order scores_ordered :
  only below (score_table type_order scores_ordered).
Proof. unfold score_table. repeat only_step. Qed.

Lemma only_render_item (w : world) i idx type_order item :
  only below (render_item w i idx type_order item).
Proof.
  unfold render_item.
  repeat first
    [ apply only_score_table
    | apply (only_weaken of_mitigation);
      [ exact of_mitigation_below | apply only_run_rewrite ]
    | only_step ].
Qed.

Lemma only_results_loop (w : world) i items :
  forall idx type_order, only below (results_loop w i idx type_order items).
Proof.
  induction items as [|item rest IH]; intros idx type_order; simpl.
  - apply only_ret.
  - apply only_bind; [apply only_render_item | intros a; apply IH].
Qed.

Lemma only_results_section (w : world) i s :
  only below (results_section w i s).
Proof.
  unfold results_section.
  repeat first [ apply only_results_loop | only_step ].
Qed.

Lemma below_In (t : list event) :
  forallb below t = true -> forall e, In e t -> above_results e = false.
Proof.
  rewrite forallb_forall. intros H e He. specialize (H e He).
  unfold below in H. now destruct (above_results e).
Qed.

Lemma below_infer_calls (t : list event) :
  forallb below t = true -> infer_calls t = [].
Proof.
  induction t as [|e t IH]; simpl; [reflexivity|].
  rewrite andb_true_iff. intros [He Ht]. unfold below in He.
  destruct e; simpl in *; auto; discriminate.
Qed.

(** ** The run, piece by piece *)

Lemma script_trace (w : world) (i : widgets) (prev : option session) :
  let s0 := init_session prev in
  let s1 := fst (sidebar w s0) in
  let s2 := fst (analyze w i s1) in
  snd (script w i prev) =
    snd (sidebar w s0) ++ page_head s1 ++ snd (analyze w i s1)
    ++ snd (results_section w i s2)
    ++ match fst (results_section w i s2) with
       | Ok _ => page_foot
       | Raise _ => []
       end.
Proof.
  unfold script. simpl.
  destruct (sidebar w (init_session prev)) as [s1 side]. simpl.
  destruct (analyze w i s1) as [s2 input]. simpl.
  destruct (results_section w i s2) as [[u|e] shown]; simpl;
    now rewrite ?app_nil_r.
Qed.

Lemma script_session (w : world) (i : widgets) (prev : option session) :
  snd (fst (script w i prev)) =
    fst (analyze w i (fst (sidebar w (init_session prev)))).
Proof.
  unfold script.
  destruct (sidebar w (init_session prev)) as [s1 side]. simpl.
  destruct (analyze w i s1) as [s2 input]. simpl.
  now destruct (results_section w i s2) as [[u|e] shown].
Qed.

(** The sidebar touches [backend_device] only. *)
Lemma sidebar_keeps (w : world) (s : session) :
  infer_results (fst (sidebar w s)) = infer_results s /\
  type_order (fst (sidebar w s)) = type_order s /\
  device (fst (sidebar w s)) = device s.
Proof. unfold sidebar. now destruct (call_health w). Qed.

Lemma sidebar_infer_calls (w : world) (s : session) :
  infer_calls (snd (sidebar w s)) = [].
Proof.
  unfold sidebar. destruct (call_health w), (load_logo w); reflexivity.
Qed.

Lemma sidebar_offline (w : world) (s : session) (e : exn) :
  call_health w = Raise e ->
  sidebar w s =
    (s, (if load_logo w then [st_logo false] else [])
        ++ [st_static about_this_api; st_static models;
            st_static backend_status; GET_health; st_error_health e;
            st_static api_details; st_static legal_notice]).
Proof. unfold sidebar. now intros ->. Qed.

Lemma page_head_infer_calls (s : session) : infer_calls (page_head s) = [].
Proof.
  unfold page_head, performance_indicator.
  now destruct (py_truthy (py_or (device s) (backend_device s))).
Qed.

(** The Analyze handler: which call it makes. *)
Lemma analyze_infer_calls (w : world) (i : widgets) (s : session) :
  infer_calls (snd (analyze w i s)) =
    if run_button i then
      match texts (text_single i) with
      | [] => []
      | ts => [ts]
      end
    else [].
Proof.
  unfold analyze. destruct (run_button i); [|reflexivity].
  destruct (texts (text_single i)) as [|t ts]; [reflexivity|].
  now destruct (call_infer w (t :: ts)).
Qed.

Lemma script_infer_calls (w : world) (i : widgets) (prev : option session) :
  infer_calls (snd (script w i prev)) =
    if run_button i then
      match texts (text_single i) with
      | [] => []
      | ts => [ts]
      end
    else [].
Proof.
  rewrite script_trace. cbv zeta.
  rewrite !infer_calls_app, sidebar_infer_calls, analyze_infer_calls.
  rewrite (below_infer_calls _ (only_results_section _ _ _)).
  rewrite page_head_infer_calls. simpl.
  now destruct (fst (results_section _ _ _)); rewrite app_nil_r.
Qed.

End Run.

Section Claims.

Context {F : PyFloat}.

(** ** The Analyze handler *)

Lemma not_in_page_head (s : session) (e : event) :
  In e (page_head s) ->
  e = performance_indicator s \/ exists b, e = st_static b.
Proof.
  unfold page_head. simpl. intros H.
  repeat (destruct H as [H|H]; [subst; eauto|]). destruct H.
Qed.

Lemma performance_indicator_cases (s : session) :
  performance_indicator s = performance_unknown \/
  exists c l, performance_indicator s = performance_badge c l.
Proof.
  unfold performance_indicator.
  destruct (py_truthy (py_or (device s) (backend_device s))); eauto.
Qed.

Lemma in_page_foot (r : res unit) (e : event) :
  In e (match r with Ok _ => page_foot | Raise _ => [] end) ->
  exists b, e = st_static b.
Proof.
  destruct r; simpl; intros H; [|destruct H].
  repeat (destruct H as [H|H]; [subst; eauto|]). destruct H.
Qed.

Lemma in_sidebar (w : world) (s : session) (e : event) :
  In e (snd (sidebar w s)) ->
  e = GET_health \/ e = st_logo false \/ (exists b, e = st_static b) \/
  (exists d, call_health w = Ok d /\
     (e = st_success_api_ok (dict_get d "device" (PStr "n/a")) \/
      exists c x, e = device_badge c x)) \/
  (exists x, call_health w = Raise x /\ e = st_error_health x).
Proof.
  unfold sidebar.
  destruct (call_health w) as [d|x], (load_logo w); simpl; intros H;
    repeat (destruct H as [H|H]; [subst; eauto 10|]); destruct H.
Qed.

(** C1. Pressing Analyze with an empty or whitespace-only text makes no
    call to /v1/infer in the whole run and shows the warning; with a text
    that is non-empty after trimming, the run makes exactly one call to
    /v1/infer, with the one-element list holding that (untrimmed) text,
    and shows no warning. *)
Theorem analyze_sends_exactly_the_text
  (w : world) (i : widgets) (prev : option session) :
  run_button i = true ->
  let t := snd (script w i prev) in
  (forallb py_isspace (text_single i) = true ->
     infer_calls t = [] /\ In st_warning_no_text t) /\
  (strip (text_single i) <> [] ->
     infer_calls t = [[text_single i]] /\ ~ In st_warning_no_text t).
Proof.
  intros Hrun t. subst t. split; intros Htext.
  - split.
    + now rewrite script_infer_calls, Hrun, texts_blank.
    + rewrite script_trace. cbv zeta. rewrite !in_app_iff.
      right; right; left. unfold analyze.
      rewrite Hrun, texts_blank by assumption.
      apply in_or_app. right. now left.
  - split.
    + now rewrite script_infer_calls, Hrun, texts_nonblank.
    + rewrite script_trace. cbv zeta. rewrite !in_app_iff.
      intros [H|[H|[H|[H|H]]]].
      * apply in_sidebar in H.
        destruct H as [H|[H|[[b H]|[(d & _ & [H|(c & x & H)])|(x & _ & H)]]]];
          discriminate.
      * apply not_in_page_head in H. destruct H as [H|[b H]]; [|discriminate].
        destruct (performance_indicator_cases
                    (fst (sidebar w (init_session prev)))) as [E|(c & l & E)];
          rewrite E in H; discriminate.
      * unfold analyze in H. rewrite Hrun, texts_nonblank in H by assumption.
        destruct (call_infer w [text_single i]); simpl in H;
          repeat (destruct H as [H|H]; [discriminate|]); destruct H.
      * apply (below_In _ (only_results_section _ _ _)) in H. discriminate.
      * apply in_page_foot in H. destruct H as [b H]. discriminate.
Qed.

(** C4. An Analyze action with a non-blank text either stores the three
    values of the new /v1/infer answer (each with its default when the
    answer lacks the key), none of them depending on what was stored
    before, or, when the call raises, shows the error and leaves device,
    type_order and results as they were before the run. *)
Theorem analyze_replaces_or_keeps
  (w : world) (i : widgets) (prev : option session) :
  run_button i = true ->
  strip (text_single i) <> [] ->
  let before := init_session prev in
  let after := snd (fst (script w i prev)) in
  (forall infer_res,
      call_infer w [text_single i] = Ok infer_res ->
      device after = dict_get infer_res "device" (PStr "unknown") /\
      type_order after = dict_get infer_res "type_order" (PList []) /\
      infer_results after = dict_get infer_res "results" (PList [])) /\
  (forall e,
      call_infer w [text_single i] = Raise e ->
      In (st_error_infer e) (snd (script w i prev)) /\
      device after = device before /\
      type_order after = type_order before /\
      infer_results after = infer_results before).
Proof.
  intros Hrun Htext before after. subst before after.
  rewrite script_session.
  destruct (sidebar_keeps w (init_session prev)) as (Hr & Ht & Hd).
  split.
  - intros infer_res Hcall. unfold analyze.
    rewrite Hrun, texts_nonblank, Hcall by assumption. simpl. auto.
  - intros e Hcall. split.
    + rewrite script_trace. cbv zeta. rewrite !in_app_iff.
      right; right; left. unfold analyze.
      rewrite Hrun, texts_nonblank, Hcall by assumption. simpl. auto 10.
    + unfold analyze.
      rewrite Hrun, texts_nonblank, Hcall by assumption. simpl. auto.
Qed.

(** ** Health check failure *)

Lemma performance_unknown_iff (s : session) :
  performance_indicator s = performance_unknown <->
  py_truthy (py_or (device s) (backend_device s)) = false.
Proof.
  unfold performance_indicator.
  destruct (py_truthy (py_or (device s) (backend_device s)));
    split; congruence.
Qed.

(** C6 (as amended). When the /health call raises, the sidebar shows the
    failure message and no device badge appears anywhere on the page; the
    Analyze handler still runs on the stored session exactly as it
    otherwise would (same /v1/infer call, same stored result); and the
    performance indicator is the one of the stored session: Unknown
    exactly when the session holds no device from an earlier /v1/infer
    answer or successful health check. *)
Theorem health_failure_keeps_page_usable
  (w : world) (i : widgets) (prev : option session) (e : exn) :
  call_health w = Raise e ->
  let before := init_session prev in
  let t := snd (script w i prev) in
  In (st_error_health e) t /\
  (forall c x, ~ In (device_badge c x) t) /\
  infer_calls t = infer_calls (snd (analyze w i before)) /\
  snd (fst (script w i prev)) = fst (analyze w i before) /\
  In (performance_indicator before) t /\
  (In performance_unknown t <->
   py_truthy (py_or (device before) (backend_device before)) = false).
Proof.
  intros Hh before t. subst before t.
  rewrite script_session, script_infer_calls, analyze_infer_calls.
  rewrite script_trace. cbv zeta.
  rewrite (sidebar_offline w _ e Hh). simpl fst. simpl snd.
  set (s := init_session prev).
  set (side := (if load_logo w then [st_logo false] else [])
               ++ [st_static about_this_api; st_static models;
                   st_static backend_status; GET_health; st_error_health e;
                   st_static api_details; st_static legal_notice]).
  assert (Herr : In (st_error_health e) side).
  { subst side. apply in_or_app. right. simpl. auto 6. }
  assert (Hside : forall x, In x side ->
    x = st_logo false \/ x = GET_health \/ x = st_error_health e
    \/ exists b, x = st_static b).
  { subst side. intros x Hx. apply in_app_or in Hx. destruct Hx as [Hx|Hx].
    - destruct (load_logo w); simpl in Hx; intuition.
    - simpl in Hx.
      repeat (destruct Hx as [Hx|Hx]; [subst; eauto 6|]). destruct Hx. }
  assert (Hinput : forall x, In x (snd (analyze w i s)) ->
    x <> performance_unknown /\ forall c y, x <> device_badge c y).
  { intros x Hx. unfold analyze in Hx.
    destruct (run_button i); [destruct (texts (text_single i)) as [|a l];
      [|destruct (call_infer w (a :: l))]|];
    simpl in Hx;
    repeat (destruct Hx as [Hx|Hx]; [subst; split; [|intros c y]; discriminate|]);
    destruct Hx. }
  repeat split.
  - apply in_or_app. now left.
  - intros c x. rewrite !in_app_iff. intros [H|[H|[H|[H|H]]]].
    + apply Hside in H. destruct H as [H|[H|[H|[b H]]]]; discriminate.
    + apply not_in_page_head in H. destruct H as [H|[b H]]; [|discriminate].
      destruct (performance_indicator_cases s) as [E|(c' & l & E)];
        rewrite E in H; discriminate.
    + apply Hinput in H. destruct H as [_ H]. now apply (H c x).
    + apply (below_In _ (only_results_section _ _ _)) in H. discriminate.
    + apply in_page_foot in H. destruct H as [b H]. discriminate.
  - apply in_or_app. right. apply in_or_app. left.
    unfold page_head. simpl. auto.
  - rewrite !in_app_iff. intros [H|[H|[H|[H|H]]]].
    + apply Hside in H. destruct H as [H|[H|[H|[b H]]]]; discriminate.
    + apply not_in_page_head in H. destruct H as [H|[b H]]; [|discriminate].
      now apply performance_unknown_iff.
    + apply Hinput in H. destruct H as [H _]. now elim H.
    + apply (below_In _ (only_results_section _ _ _)) in H. discriminate.
    + apply in_page_foot in H. destruct H as [b H]. discriminate.
  - intros H. apply performance_unknown_iff in H.
    apply in_or_app. right. apply in_or_app. left.
    unfold page_head. rewrite H. simpl. auto.
Qed.

(** ** The mitigation panel *)

Definition meta_of (mit : dict) : pyval :=
  py_or (dict_get mit "meta" (PDict [])) (PDict []).

(** What [voice] puts on the page; it never raises. *)
Lemma voice_trace (w : world) idx rewritten advisory :
  voice w idx rewritten advisory =
    (Ok tt,
     if py_truthy (py_or rewritten advisory) then
       [st_static hear_header; st_static generating_audio_caption;
        gTTS (py_or rewritten advisory);
        match synthesize w idx (py_or rewritten advisory) with
        | Ok _ => st_audio
        | Raise e => st_error_voice e
        end]
     else []).
Proof.
  unfold voice. destruct (py_truthy (py_or rewritten advisory)); [|reflexivity].
  now destruct (synthesize w idx (py_or rewritten advisory)).
Qed.

Lemma badge_color_str (s : str) :
  badge_color (PStr s) = Ok (dict_get match badge_colors with
                                      | PDict d => d
                                      | _ => []
                                      end s (PStr "#d9d9d9")).
Proof. reflexivity. Qed.

(** The panel shown for an answer that renders. *)
Definition panel (w : world) (idx : nat) (mit : dict)
  (m_severity : str) (color primary_cat : pyval) : list event :=
  let mode := dict_get mit "mode" (PStr "rewrite") in
  let advisory := dict_get mit "advisory" (PStr "") in
  let rewritten := dict_get mit "rewritten" PNone in
  [severity_badge color m_severity
     (if py_truthy primary_cat then Some primary_cat else None);
   st_static persona_header; st_static explanation_header]
  ++ (if py_truthy advisory then [st_markdown advisory]
      else [st_static no_detailed_advisory])
  ++ (if py_truthy rewritten then
        [st_static suggested_rewrite_header; st_code rewritten;
         st_static copy_rewrite_caption]
      else [st_static advisory_only_caption])
  ++ snd (voice w idx rewritten advisory)
  ++ [mode_explanation
        (if py_eq_str mode "advisory" then advisory_mode
         else if py_eq_str mode "rewrite" then rewrite_mode
         else not_proposed_a_rewrite (PStr m_severity))].

(** Rendering an answer succeeds exactly when its severity (or, failing
    that, the result's) is a string and its meta is a dict or falsy; it
    then shows [panel]. *)
Lemma render_mitigation_ok (w : world) idx severity top_label mit :
  fst (render_mitigation w idx severity top_label mit) = Ok tt ->
  exists m_severity color primary_cat,
    dict_get mit "severity" severity = PStr m_severity /\
    badge_color (PStr m_severity) = Ok color /\
    py_get (meta_of mit) (PStr "top_label") top_label = Ok primary_cat /\
    snd (render_mitigation w idx severity top_label mit)
    = panel w idx mit m_severity color primary_cat.
Proof.
  unfold render_mitigation. fold (meta_of mit).
  destruct (py_get (meta_of mit) (PStr "top_label") top_label)
    as [primary_cat|x]; [|discriminate].
  destruct (dict_get mit "severity" severity) eqn:Es; try discriminate.
  intros _. exists s. eexists. exists primary_cat.
  split; [reflexivity|]. split; [apply badge_color_str|].
  split; [reflexivity|].
  unfold panel. rewrite voice_trace. simpl.
  destruct (py_truthy primary_cat), (py_truthy (dict_get mit "advisory" (PStr ""))),
    (py_truthy (dict_get mit "rewritten" PNone)),
    (py_truthy (py_or (dict_get mit "rewritten" PNone)
                  (dict_get mit "advisory" (PStr "")))),
    (py_eq_str (dict_get mit "mode" (PStr "rewrite")) "advisory"),
    (py_eq_str (dict_get mit "mode" (PStr "rewrite")) "rewrite");
    reflexivity.
Qed.

Lemma render_mitigation_total (w : world) idx severity top_label mit
  (m_severity : str) (primary_cat : pyval) :
  dict_get mit "severity" severity = PStr m_severity ->
  py_get (meta_of mit) (PStr "top_label") top_label = Ok primary_cat ->
  fst (render_mitigation w idx severity top_label mit) = Ok tt.
Proof.
  unfold render_mitigation. fold (meta_of mit). intros -> ->.
  rewrite voice_trace. simpl.
  destruct (py_truthy primary_cat), (py_truthy (dict_get mit "advisory" (PStr ""))),
    (py_truthy (dict_get mit "rewritten" PNone)),
    (py_truthy (py_or (dict_get mit "rewritten" PNone)
                  (dict_get mit "advisory" (PStr "")))),
    (py_eq_str (dict_get mit "mode" (PStr "rewrite")) "advisory"),
    (py_eq_str (dict_get mit "mode" (PStr "rewrite")) "rewrite");
    reflexivity.
Qed.

Lemma speech_calls_panel (w : world) idx mit m_severity color primary_cat :
  speech_calls (panel w idx mit m_severity color primary_cat) =
    let spoken := py_or (dict_get mit "rewritten" PNone)
                    (dict_get mit "advisory" (PStr "")) in
    if py_truthy spoken then [spoken] else [].
Proof.
  unfold panel. rewrite voice_trace. cbv zeta. simpl.
  rewrite !speech_calls_app.
  destruct (py_truthy (dict_get mit "advisory" (PStr ""))),
    (py_truthy (dict_get mit "rewritten" PNone)),
    (py_truthy (py_or (dict_get mit "rewritten" PNone)
                  (dict_get mit "advisory" (PStr ""))));
    try destruct (synthesize w idx _); reflexivity.
Qed.

(** The closing sentence of a panel. *)
Definition closing (mit : dict) (m_severity : str) : mode_text :=
  let mode := dict_get mit "mode" (PStr "rewrite") in
  if py_eq_str mode "advisory" then advisory_mode
  else if py_eq_str mode "rewrite" then rewrite_mode
  else not_proposed_a_rewrite (PStr m_severity).

Ltac panel_cases mit :=
  unfold panel; rewrite voice_trace; cbv zeta;
  rewrite !in_app_iff; simpl;
  destruct (py_truthy (dict_get mit "advisory" (PStr ""))),
    (py_truthy (dict_get mit "rewritten" PNone)),
    (py_truthy (py_or (dict_get mit "rewritten" PNone)
                  (dict_get mit "advisory" (PStr ""))));
  simpl; split; intros H;
  repeat match goal with
         | H : _ \/ _ |- _ => destruct H as [H|H]
         | H : _ /\ _ |- _ => destruct H
         | H : False |- _ => destruct H
         | H : match ?x with _ => _ end = _ |- _ => destruct x
         | H : _ = _ |- _ =>
             first [ discriminate H | injection H; intros; subst; clear H ]
         end;
  try subst; unfold closing; auto 12.

Lemma panel_closing (w : world) idx mit sev color pc (x : mode_text) :
  In (mode_explanation x) (panel w idx mit sev color pc) <->
  x = closing mit sev.
Proof. panel_cases mit. Qed.

Lemma panel_code (w : world) idx mit sev color pc (v : pyval) :
  In (st_code v) (panel w idx mit sev color pc) <->
  py_truthy (dict_get mit "rewritten" PNone) = true /\
  v = dict_get mit "rewritten" PNone.
Proof. panel_cases mit. Qed.

Lemma panel_badge (w : world) idx mit sev color pc c l cat :
  In (severity_badge c l cat) (panel w idx mit sev color pc) <->
  c = color /\ l = sev /\
  cat = if py_truthy pc then Some pc else None.
Proof. panel_cases mit. Qed.

(** C2. For every mitigate answer that renders, speech synthesis is
    called at most once, and it is called if and only if the rewritten
    text is non-empty, or it is empty and the advisory text is non-empty;
    the text handed to it is the rewritten text when that is non-empty
    and the advisory text otherwise; with both empty there is no call.
    (Empty is Python falsity: the empty string, or None for a missing or
    null rewritten.) *)
Theorem speech_prefers_rewrite_then_advisory
  (w : world) (idx : nat) (severity top_label : pyval) (mit : dict) :
  fst (render_mitigation w idx severity top_label mit) = Ok tt ->
  let rewritten := dict_get mit "rewritten" PNone in
  let advisory := dict_get mit "advisory" (PStr "") in
  let calls :=
    speech_calls (snd (render_mitigation w idx severity top_label mit)) in
  (calls <> [] <->
   py_truthy rewritten = true \/
   (py_truthy rewritten = false /\ py_truthy advisory = true)) /\
  (py_truthy rewritten = true -> calls = [rewritten]) /\
  (py_truthy rewritten = false -> py_truthy advisory = true ->
   calls = [advisory]) /\
  (py_truthy rewritten = false -> py_truthy advisory = false -> calls = []).
Proof.
  intros Hok rewritten advisory calls.
  destruct (render_mitigation_ok _ _ _ _ _ Hok)
    as (m_severity & color & primary_cat & _ & _ & _ & Ht).
  assert (Hc : calls = if py_truthy (py_or rewritten advisory)
                       then [py_or rewritten advisory] else []).
  { subst calls. rewrite Ht. apply speech_calls_panel. }
  clearbody calls. subst calls. unfold py_or.
  destruct (py_truthy rewritten) eqn:Er.
  - rewrite Er. repeat split; try congruence; auto.
  - destruct (py_truthy advisory) eqn:Ea.
    + repeat split; try congruence; auto.
    + repeat split; try congruence. intros [H|[_ H]]; discriminate.
Qed.

(** C5 (as amended). For every mitigate answer with mode none that
    renders, the page shows the not-proposed-a-rewrite message; the
    rewritten-text code block is governed by the rewritten field alone:
    it is shown exactly when the answer carries a non-empty rewritten
    text, and skipped when rewritten is empty, null or missing. *)
Theorem mode_none_message_and_code_block
  (w : world) (idx : nat) (severity top_label : pyval) (mit : dict) :
  dict_lookup "mode" mit = Some (PStr "none") ->
  fst (render_mitigation w idx severity top_label mit) = Ok tt ->
  let t := snd (render_mitigation w idx severity top_label mit) in
  (exists m_severity,
     In (mode_explanation (not_proposed_a_rewrite m_severity)) t) /\
  ((exists v, In (st_code v) t) <->
   py_truthy (dict_get mit "rewritten" PNone) = true).
Proof.
  intros Hmode Hok t. subst t.
  destruct (render_mitigation_ok _ _ _ _ _ Hok)
    as (m_severity & color & primary_cat & _ & _ & _ & Ht).
  rewrite Ht. split.
  - exists (PStr m_severity). apply panel_closing.
    unfold closing, dict_get. now rewrite Hmode.
  - split.
    + intros [v H]. now apply panel_code in H.
    + intros H. eexists. apply panel_code. now split.
Qed.

Lemma badge_shown_is_for_severity
  (w : world) idx severity top_label mit color sev_label cat :
  In (severity_badge color sev_label cat)
     (snd (render_mitigation w idx severity top_label mit)) ->
  dict_get mit "severity" severity = PStr sev_label /\
  badge_color (PStr sev_label) = Ok color.
Proof.
  destruct (py_get (meta_of mit) (PStr "top_label") top_label)
    as [primary_cat|x] eqn:Em.
  - destruct (dict_get mit "severity" severity) eqn:Es;
      try (unfold render_mitigation; fold (meta_of mit);
           rewrite Em, Es; intros []).
    pose proof (render_mitigation_total w idx _ _ _ _ _ Es Em) as Hok.
    destruct (render_mitigation_ok _ _ _ _ _ Hok)
      as (m_severity & color' & primary_cat' & Hs & Hc & _ & Ht).
    rewrite Ht, panel_badge. rewrite Es in Hs. injection Hs as <-.
    intros (-> & -> & _). now split.
  - unfold render_mitigation. fold (meta_of mit). rewrite Em. intros [].
Qed.

Lemma badge_color_default (s : str) :
  s <> lit "high" -> s <> lit "medium" -> s <> lit "low" ->
  badge_color (PStr s) = Ok (PStr "#d9d9d9").
Proof.
  intros Hh Hm Hl. unfold badge_color, badge_colors, py_get, dict_get.
  simpl.
  rewrite (proj2 (str_eqb_neq _ _)), (proj2 (str_eqb_neq _ _)),
    (proj2 (str_eqb_neq _ _)) by (apply not_eq_sym; assumption).
  now destruct (str_eqb _ s).
Qed.

(** C9. The colour of the severity badge is a function of the severity
    string alone: high is red, medium amber, low green, none and every
    other string gray; and the badge shown for an answer carries that
    colour of the severity it displays. *)
Theorem badge_colour_by_severity :
  badge_color (PStr "high") = Ok (PStr "#ff4d4f") /\
  badge_color (PStr "medium") = Ok (PStr "#faad14") /\
  badge_color (PStr "low") = Ok (PStr "#52c41a") /\
  badge_color (PStr "none") = Ok (PStr "#d9d9d9") /\
  (forall s : str,
      s <> lit "high" -> s <> lit "medium" -> s <> lit "low" ->
      badge_color (PStr s) = Ok (PStr "#d9d9d9")) /\
  (forall (w : world) idx severity top_label mit color sev_label cat,
      In (severity_badge color sev_label cat)
         (snd (render_mitigation w idx severity top_label mit)) ->
      dict_get mit "severity" severity = PStr sev_label /\
      badge_color (PStr sev_label) = Ok color).
Proof.
  split; [reflexivity|]. split; [reflexivity|]. split; [reflexivity|].
  split; [reflexivity|]. split.
  - exact badge_color_default.
  - intros w idx severity top_label mit color sev_label cat.
    apply badge_shown_is_for_severity.
Qed.

(** C10. An answer without a mode key is treated as mode rewrite: the
    rewrite-mode explanation is shown and the not-proposed-a-rewrite
    message is not.  That message appears only when the key is present
    with a value other than the strings rewrite and advisory. *)
Theorem missing_mode_means_rewrite
  (w : world) (idx : nat) (severity top_label : pyval) (mit : dict) :
  fst (render_mitigation w idx severity top_label mit) = Ok tt ->
  let t := snd (render_mitigation w idx severity top_label mit) in
  (dict_lookup "mode" mit = None ->
   In (mode_explanation rewrite_mode) t /\
   forall m_severity,
     ~ In (mode_explanation (not_proposed_a_rewrite m_severity)) t) /\
  (forall m_severity,
     In (mode_explanation (not_proposed_a_rewrite m_severity)) t ->
     exists mode,
       dict_lookup "mode" mit = Some mode /\
       mode <> PStr "rewrite" /\ mode <> PStr "advisory").
Proof.
  intros Hok t. subst t.
  destruct (render_mitigation_ok _ _ _ _ _ Hok)
    as (sev & color & primary_cat & _ & _ & _ & Ht).
  rewrite Ht.
  assert (Hdefault : dict_lookup "mode" mit = None ->
                     closing mit sev = rewrite_mode).
  { intros Hnone. unfold closing, dict_get. rewrite Hnone.
    change (py_eq_str (PStr "rewrite") "advisory") with false.
    now rewrite (proj2 (py_eq_str_true (PStr "rewrite") "rewrite") eq_refl). }
  split.
  - intros Hnone. split.
    + apply panel_closing. now rewrite Hdefault.
    + intros m H. apply panel_closing in H. rewrite Hdefault in H by assumption.
      discriminate.
  - intros m H. apply panel_closing in H.
    destruct (dict_lookup "mode" mit) as [mode|] eqn:Em.
    + exists mode. split; [reflexivity|].
      unfold closing, dict_get in H. rewrite Em in H.
      destruct (py_eq_str mode "advisory") eqn:Ea; [discriminate|].
      destruct (py_eq_str mode "rewrite") eqn:Er; [discriminate|].
      split; now apply py_eq_str_false.
    + rewrite Hdefault in H by reflexivity. discriminate.
Qed.

(** ** One result *)

Definition given_scores (d : dict) : pyval :=
  py_or (dict_get d "scores_ordered" PNone) (PDict []).

Definition raw_scores (d : dict) : pyval :=
  py_or (dict_get d "scores" PNone) (PDict []).

Definition item_meta (d : dict) : pyval :=
  py_or (dict_get d "meta" (PDict [])) (PDict []).

Definition categories_for (type_order : pyval) (d : dict) : res pyval :=
  if py_truthy type_order then Ok type_order else py_keys (raw_scores d).

Definition scores_for (type_order : pyval) (d : dict) : res score_map :=
  if negb (py_truthy (given_scores d)) && py_truthy type_order then
    match py_iter type_order with
    | Raise e => Raise e
    | Ok cats =>
        match align_scores (raw_scores d) cats [] with
        | Raise e => Raise e
        | Ok m => Ok (aligned m)
        end
    end
  else Ok (given (given_scores d)).

Ltac peel H :=
  rewrite fst_bind in H; cbn [fst lift emit] in H;
  try match type of H with
      | match ?r with Ok _ => _ | Raise _ => _ end = _ =>
          let E := fresh "E" in
          destruct r eqn:E; [ | discriminate H ]
      end.



Definition item_head (idx : nat) (d : dict) (top_label : pyval)
  (severity : str) (label : string) : list event :=
  [st_expander (idx + 1) (py_or top_label (PStr "none")) (Nat.eqb idx 0);
   st_static debug_inside_expander; st_static original_text_header;
   st_write (dict_get d "text" (PStr ""));
   severity_line severity label].

Definition item_middle (w : world) (d : dict) : list event :=
  [st_static model_metadata_expander; st_json (item_meta d);
   st_static rule; st_static rewrite_section_header;
   (if load_logo w then st_logo true else st_static moderator_name);
   st_static run_rewrite_hint].

Lemma render_item_run (w : world) (i : widgets) idx type_order d
  sm top_label severity cats scores flag label :
  py_get (item_meta d) (PStr "severity_meta") (PDict []) = Ok sm ->
  py_get (py_or sm (PDict [])) (PStr "top_label")
    (dict_get d "top_label" PNone) = Ok top_label ->
  dict_get d "severity" (PStr "none") = PStr severity ->
  categories_for type_order d = Ok cats ->
  scores_for cats d = Ok scores ->
  py_get (py_or sm (PDict [])) (PStr "implicit_explicit") (PInt 0)
  = Ok flag ->
  implicit_label flag = Ok label ->
  let table := score_table cats scores in
  let panel := run_rewrite w i idx (dict_get d "text" (PStr ""))
                 (PStr severity) top_label in
  render_item w i idx type_order (PDict d) =
    (match fst table, fst panel with
     | Ok _, Ok _ => Ok cats
     | Ok _, Raise e => Raise e
     | Raise e, _ => Raise e
     end,
     item_head idx d top_label severity label ++ snd table
     ++ match fst table with
        | Ok _ => item_middle w d ++ snd panel
        | Raise _ => []
        end).
Proof.
  intros Esm Etop Esev Ecats Escores Eflag Elabel table panel.
  subst table panel.
  rewrite (surjective_pairing (render_item w i idx type_order (PDict d))).
  unfold render_item, item_head, item_middle.
  rewrite !py_get_dict_str.
  fold (item_meta d) (given_scores d) (raw_scores d).
  f_equal.
  - repeat (rewrite fst_bind; cbn [fst lift emit];
            fold (item_meta d) (given_scores d) (raw_scores d);
            fold (categories_for type_order d);
            rewrite ?Esm, ?Etop, ?Esev, ?Ecats; fold (scores_for cats d);
            rewrite ?Escores, ?Eflag, ?Elabel; cbn [py_capitalize]).
    now destruct (load_logo w).
  - repeat (rewrite snd_bind; cbn [fst snd lift emit app];
            fold (item_meta d) (given_scores d) (raw_scores d);
            fold (categories_for type_order d);
            rewrite ?Esm, ?Etop, ?Esev, ?Ecats; fold (scores_for cats d);
            rewrite ?Escores, ?Eflag, ?Elabel; cbn [py_capitalize]).
    destruct (load_logo w), (fst (score_table cats scores)),
      (fst (run_rewrite w i idx (dict_get d "text" (PStr ""))
              (PStr severity) top_label));
      cbn [fst snd emit ret app]; rewrite ?app_nil_r; reflexivity.
Qed.

Lemma render_item_ok (w : world) (i : widgets) idx type_order item cats :
  fst (render_item w i idx type_order item) = Ok cats ->
  exists d sm top_label severity scores flag label,
    item = PDict d /\
    py_get (item_meta d) (PStr "severity_meta") (PDict []) = Ok sm /\
    py_get (py_or sm (PDict [])) (PStr "top_label")
      (dict_get d "top_label" PNone) = Ok top_label /\
    dict_get d "severity" (PStr "none") = PStr severity /\
    categories_for type_order d = Ok cats /\
    scores_for cats d = Ok scores /\
    py_get (py_or sm (PDict [])) (PStr "implicit_explicit") (PInt 0)
    = Ok flag /\
    implicit_label flag = Ok label /\
    fst (score_table cats scores) = Ok tt /\
    fst (run_rewrite w i idx (dict_get d "text" (PStr ""))
           (PStr severity) top_label) = Ok tt /\
    snd (render_item w i idx type_order item) =
      item_head idx d top_label severity label
      ++ snd (score_table cats scores)
      ++ item_middle w d
      ++ snd (run_rewrite w i idx (dict_get d "text" (PStr ""))
                (PStr severity) top_label).
Proof.
  intros H.
  destruct item as [| | | | |l|d];
    try (unfold render_item in H; rewrite fst_bind in H; discriminate H).
  pose proof H as H0. unfold render_item in H.
  rewrite !py_get_dict_str in H.
  do 4 peel H. fold (item_meta d) (given_scores d) (raw_scores d) in H.
  peel H. rename a into sm. peel H. peel H. rename a into top_label.
  peel H. fold (categories_for type_order d) in H.
  peel H. rename a into cats'. fold (scores_for cats' d) in H.
  peel H. rename a into scores. peel H. rename a into flag.
  peel H. rename a into label. do 4 peel H.
  peel H. rename a into severity.
  destruct (dict_get d "severity" (PStr "none")) eqn:Esev; try discriminate.
  injection E5 as ->.
  pose proof (render_item_run w i idx type_order d _ _ _ _ _ _ _
                E E0 Esev E1 E2 E3 E4) as R.
  cbv zeta in R. rewrite R in H0. cbn [fst] in H0. rewrite R. cbn [snd].
  destruct (fst (score_table cats' scores)) as [[]|] eqn:Et; [|discriminate].
  destruct (fst (run_rewrite w i idx (dict_get d "text" (PStr ""))
                   (PStr severity) top_label)) as [[]|] eqn:Ep;
    [|discriminate].
  injection H0 as <-.
  exists d, sm, top_label, severity, scores, flag, label.
  repeat split; assumption || reflexivity.
Qed.

Lemma bind_lift_Ok {A B} (a : A) (k : A -> render B) :
  bind (lift (Ok a)) k = k a.
Proof. unfold bind, lift. now destruct (k a). Qed.

Lemma score_table_run (type_order : pyval) (scores : score_map) :
  score_table type_order scores =
    if py_truthy type_order then
      match py_iter type_order with
      | Raise e => (Raise e, [])
      | Ok cats =>
          match map_res (score_of scores) cats with
          | Raise e => (Raise e, [])
          | Ok score =>
              (Ok tt, [st_static scores_header; st_dataframe type_order score;
                       st_static visualization_header;
                       st_bar_chart type_order score])
          end
      end
    else (Ok tt, [st_static no_category_scores]).
Proof.
  unfold score_table. destruct (py_truthy type_order); [|reflexivity].
  destruct (py_iter type_order) as [cats|e]; [|reflexivity].
  rewrite bind_lift_Ok.
  destruct (map_res (score_of scores) cats); reflexivity.
Qed.

Lemma map_res_Forall2 {A B} (f : A -> res B) (l : list A) (l' : list B) :
  map_res f l = Ok l' -> Forall2 (fun a b => f a = Ok b) l l'.
Proof.
  revert l'. induction l as [|a l IH]; simpl; intros l' H.
  - injection H as <-. constructor.
  - destruct (f a) as [b|] eqn:Ea; [|discriminate].
    destruct (map_res f l) as [bs|]; [|discriminate].
    injection H as <-. constructor; auto.
Qed.

Lemma Forall2_combine {A B} (R : A -> B -> Prop) (l : list A) (l' : list B) :
  Forall2 R l l' ->
  map fst (combine l l') = l /\ forall a b, In (a, b) (combine l l') -> R a b.
Proof.
  induction 1 as [|a b l l' Hab H IH]; simpl.
  - split; [reflexivity | intros a b []].
  - destruct IH as [IH1 IH2]. split; [now rewrite IH1|].
    intros a' b' [E|Hin]; [injection E as <- <-; exact Hab | auto].
Qed.


(** *** Scores *)

Definition has_score (mapping : pyval) (c : str) : bool :=
  match mapping with
  | PDict m => match dict_lookup c m with Some _ => true | None => false end
  | _ => false
  end.

(** The category [c] occurs in neither score mapping of the result. *)
Definition missing (c : str) (d : dict) : Prop :=
  has_score (dict_get d "scores_ordered" PNone) c = false /\
  has_score (dict_get d "scores" PNone) c = false.

Lemma get_missing (mapping default v : pyval) (c : str) :
  has_score mapping c = false ->
  py_get (py_or mapping (PDict [])) (PStr c) default = Ok v ->
  v = default.
Proof.
  unfold py_or. intros Hm.
  destruct (py_truthy mapping); [|intros H; now injection H as <-].
  destruct mapping; try discriminate. rewrite py_get_dict_str.
  intros H. injection H as <-. unfold dict_get.
  simpl in Hm. now destruct (dict_lookup c d).
Qed.

Lemma key_eqb_str_l (c : str) (k : pyval) :
  key_eqb (PStr c) k = true -> k = PStr c.
Proof.
  destruct k; simpl; try discriminate.
  intros H. apply str_eqb_eq in H. now subst.
Qed.

(** Every string-keyed entry of the comprehension's dict holds the float
    of what the raw scores give for that key (0.0 when they give none). *)
Definition entries_from (raw : pyval) (m : list (pyval * pyfloat)) : Prop :=
  forall k x c, In (k, x) m -> k = PStr c ->
    exists v, py_get raw (PStr c) (PFloat fzero) = Ok v /\ py_float v = Ok x.

Lemma aligned_set_from raw cat v x m :
  entries_from raw m ->
  py_get raw cat (PFloat fzero) = Ok v -> py_float v = Ok x ->
  entries_from raw (aligned_set cat x m).
Proof.
  intros Hm Hv Hx. induction m as [|[k' x'] r IH]; simpl.
  - intros k y c [E|[]] ->. injection E as <- <-. eauto.
  - assert (Hr : entries_from raw r).
    { intros k y c Hin. apply (Hm k y c). now right. }
    destruct (key_eqb k' cat) eqn:Ek.
    + intros k y c [E|Hin] ->.
      * injection E as -> <-. apply key_eqb_str_l in Ek. subst cat. eauto.
      * now apply (Hr _ y c Hin).
    + intros k y c [E|Hin] ->.
      * injection E as -> <-. apply (Hm (PStr c) x' c); [now left|reflexivity].
      * now apply (IH Hr _ y c Hin).
Qed.

Lemma align_scores_from raw cats :
  forall acc m,
    align_scores raw cats acc = Ok m ->
    entries_from raw acc -> entries_from raw m.
Proof.
  induction cats as [|cat r IH]; simpl; intros acc m H Hacc.
  - now injection H as <-.
  - destruct (py_get raw cat (PFloat fzero)) as [v|] eqn:Ev; [|discriminate].
    destruct (py_float v) as [x|] eqn:Ex; [|discriminate].
    apply (IH _ _ H). now apply (aligned_set_from raw cat v x).
Qed.

Lemma aligned_lookup_In (k : pyval) (m : list (pyval * pyfloat)) x :
  aligned_lookup k m = Some x ->
  exists k', In (k', x) m /\ key_eqb k' k = true.
Proof.
  induction m as [|[k' x'] r IH]; simpl; [discriminate|].
  destruct (key_eqb k' k) eqn:Ek.
  - intros H. injection H as <-. eauto.
  - intros H. destruct (IH H) as (k0 & Hin & E). eauto.
Qed.

(** A category that occurs in neither mapping is scored 0.0. *)
Lemma score_of_missing (type_order : pyval) (d : dict) scores c x :
  scores_for type_order d = Ok scores ->
  missing c d ->
  score_of scores (PStr c) = Ok x ->
  x = fzero.
Proof.
  unfold scores_for, missing. intros Hs [Hg Hr].
  destruct (negb (py_truthy (given_scores d)) && py_truthy type_order).
  - destruct (py_iter type_order) as [cats|]; [|discriminate].
    destruct (align_scores (raw_scores d) cats []) as [m|] eqn:Em;
      [|discriminate].
    injection Hs as <-. simpl.
    destruct (aligned_lookup (PStr c) m) as [y|] eqn:El;
      intros H; injection H as <-; [|reflexivity].
    destruct (aligned_lookup_In _ _ _ El) as (k & Hin & Ek).
    apply key_eqb_str in Ek.
    assert (Hm : entries_from (raw_scores d) m).
    { apply (align_scores_from _ _ _ _ Em). intros ? ? ? []. }
    destruct (Hm k y c Hin Ek) as (v & Hv & Hy).
    apply (get_missing _ _ _ _ Hr) in Hv. subst v. simpl in Hy.
    now injection Hy.
  - injection Hs as <-. unfold score_of.
    destruct (py_get (given_scores d) (PStr c) (PFloat fzero)) as [v|] eqn:Ev;
      [|discriminate].
    apply (get_missing _ _ _ _ Hg) in Ev. subst v. simpl.
    intros H. now injection H.
Qed.

(** *** The table of one result *)

(** [table] is the score table for [item] under the category list
    [cats]: its category column is [cats], it has one row per category
    in that order, and a category missing from the score mappings of the
    result has score 0.0. *)
Definition table_for (cats : list pyval) (item : pyval)
  (table : pyval * list pyfloat) : Prop :=
  let rows := table_rows (fst table) (snd table) in
  fst table = PList cats /\
  map fst rows = cats /\
  forall d c x,
    item = PDict d -> In (PStr c, x) rows -> missing c d -> x = fzero.

Lemma no_dataframes_in_mitigation (t : list event) :
  forallb of_mitigation t = true -> dataframes t = [].
Proof.
  induction t as [|e t IH]; simpl; [reflexivity|].
  rewrite andb_true_iff. intros [He Ht].
  destruct e; simpl in *; auto; discriminate.
Qed.

Lemma item_table (w : world) (i : widgets) idx cats item cats' :
  cats <> [] ->
  fst (render_item w i idx (PList cats) item) = Ok cats' ->
  cats' = PList cats /\
  exists table,
    dataframes (snd (render_item w i idx (PList cats) item)) = [table] /\
    table_for cats item table.
Proof.
  intros Hne H.
  destruct (render_item_ok _ _ _ _ _ _ H)
    as (d & sm & top_label & severity & scores & flag & label & -> & _ & _ & _
        & Hc & Hs & _ & _ & Ht & _ & Htrace).
  unfold categories_for in Hc.
  assert (Htruthy : py_truthy (PList cats) = true) by now destruct cats.
  rewrite Htruthy in Hc. injection Hc as <-. split; [reflexivity|].
  rewrite Htrace, !dataframes_app.
  rewrite (no_dataframes_in_mitigation _ (only_run_rewrite _ _ _ _ _ _)).
  rewrite score_table_run, Htruthy in Ht |- *. simpl py_iter in *.
  cbv beta iota in Ht |- *.
  destruct (map_res (score_of scores) cats) as [score|] eqn:Em;
    [|simpl in Ht; discriminate Ht].
  exists (PList cats, score). split.
  - unfold item_middle. now destruct (load_logo w).
  - apply map_res_Forall2, Forall2_combine in Em. destruct Em as [Hfst Hin].
    unfold table_for. simpl. repeat split; [exact Hfst|].
    intros d' c x E Hrow Hmiss. injection E as <-.
    apply Hin in Hrow. eapply score_of_missing; eauto.
Qed.

Lemma loop_tables (w : world) (i : widgets) cats items :
  cats <> [] ->
  forall idx,
    fst (results_loop w i idx (PList cats) items) = Ok tt ->
    Forall2 (table_for cats) items
      (dataframes (snd (results_loop w i idx (PList cats) items))).
Proof.
  intros Hne. induction items as [|item rest IH]; intros idx; simpl.
  - constructor.
  - rewrite fst_bind, snd_bind, dataframes_app.
    destruct (fst (render_item w i idx (PList cats) item)) as [cats'|] eqn:E;
      [|discriminate].
    destruct (item_table _ _ _ _ _ _ Hne E) as (-> & table & -> & Ht).
    intros H. simpl. constructor; auto.
Qed.


(** C3. With a non-empty category ordering in the session, a results
    section that renders shows exactly one score table per result, in
    order; each table has type_order as its category column, hence one
    row per category in that order, and gives 0.0 to every category that
    occurs in neither score mapping of its result. *)
Theorem every_table_follows_type_order
  (w : world) (i : widgets) (s : session)
  (cats items : list pyval) :
  type_order s = PList cats ->
  cats <> [] ->
  infer_results s = PList items ->
  fst (results_section w i s) = Ok tt ->
  Forall2 (table_for cats) items
    (dataframes (snd (results_section w i s))).
Proof.
  intros Hto Hne Hres. unfold results_section. rewrite Hto, Hres.
  destruct items as [|item rest]; [constructor|].
  cbn [py_truthy py_iter].
  repeat (rewrite fst_bind, snd_bind; cbn [fst snd emit lift app dataframes]).
  apply loop_tables. exact Hne.
Qed.

(** ** Values outside the enumerated sets *)

(** The answer shapes of the backend interface, with severity, mode and
    style flag left unconstrained: score mappings are dicts of floats (or
    null, or missing), the two meta levels are dicts (or null, or
    missing). *)
Definition float_mapping (v : pyval) : bool :=
  match v with
  | PNone => true
  | PDict m =>
      forallb (fun kv => match snd kv with PFloat _ => true | _ => false end) m
  | _ => false
  end.

Definition dict_or_null (v : pyval) : bool :=
  match v with
  | PNone | PDict _ => true
  | _ => false
  end.

Definition well_shaped_result (d : dict) : bool :=
  float_mapping (dict_get d "scores_ordered" PNone)
  && float_mapping (dict_get d "scores" PNone)
  && match dict_get d "meta" (PDict []) with
     | PNone => true
     | PDict meta => dict_or_null (dict_get meta "severity_meta" (PDict []))
     | _ => false
     end.

Definition well_shaped_answer (mit : dict) : bool :=
  dict_or_null (dict_get mit "meta" (PDict [])).

Definition is_str (v : pyval) : bool :=
  match v with PStr _ => true | _ => false end.

(** The style flag the loop body reads from a result. *)
Definition style_flag (d : dict) : pyval :=
  match item_meta d with
  | PDict meta =>
      match py_or (dict_get meta "severity_meta" (PDict [])) (PDict []) with
      | PDict sev_meta => dict_get sev_meta "implicit_explicit" (PInt 0)
      | _ => PInt 0
      end
  | _ => PInt 0
  end.

(** A flag Python equates with none of 0, 1, 2. *)
Definition unrecognised_flag (flag : pyval) : Prop :=
  key_eqb (PInt 0) flag = false /\ key_eqb (PInt 1) flag = false /\
  key_eqb (PInt 2) flag = false.

Lemma implicit_label_total (flag : pyval) :
  hashable flag = true -> exists label, implicit_label flag = Ok label.
Proof. unfold implicit_label. intros ->. eauto. Qed.

Lemma implicit_label_unknown (flag : pyval) :
  hashable flag = true -> unrecognised_flag flag ->
  implicit_label flag = Ok "unknown".
Proof.
  unfold implicit_label, unrecognised_flag. intros -> (H0 & H1 & H2).
  unfold implicit_map. cbn [implicit_lookup]. now rewrite H0, H1, H2.
Qed.

Lemma map_res_total {A B} (f : A -> res B) (l : list A) :
  (forall a, In a l -> exists b, f a = Ok b) ->
  exists l', map_res f l = Ok l'.
Proof.
  induction l as [|a l IH]; simpl; intros H; [eauto|].
  destruct (H a (or_introl eq_refl)) as [b ->].
  destruct IH as [l' ->]; eauto.
Qed.

Lemma float_mapping_get (m : dict) (c : str) :
  float_mapping (PDict m) = true ->
  exists x, dict_get m c (PFloat fzero) = PFloat x.
Proof.
  unfold dict_get. simpl. induction m as [|[k v] r IH]; simpl; [eauto|].
  rewrite andb_true_iff. intros [Hv Hr].
  destruct (str_eqb k c); [|auto]. destruct v; try discriminate. eauto.
Qed.

Lemma float_mapping_raw (v : pyval) :
  float_mapping v = true ->
  exists m, py_or v (PDict []) = PDict m /\ float_mapping (PDict m) = true.
Proof.
  unfold py_or. destruct v; try discriminate; simpl; eauto.
  destruct d; simpl; eauto.
Qed.

Lemma align_scores_total (m : dict) (cats : list pyval) :
  float_mapping (PDict m) = true ->
  forallb is_str cats = true ->
  forall acc, exists m', align_scores (PDict m) cats acc = Ok m'.
Proof.
  intros Hm. induction cats as [|cat r IH]; simpl; intros Hc acc; [eauto|].
  apply andb_true_iff in Hc. destruct Hc as [Hcat Hr].
  destruct cat; try discriminate.
  destruct (float_mapping_get m s Hm) as [x ->]. simpl. auto.
Qed.

Lemma score_table_total (type_order : pyval) (d : dict) (cats : list pyval) :
  well_shaped_result d = true ->
  type_order = PList cats -> forallb is_str cats = true ->
  exists scores,
    scores_for type_order d = Ok scores /\
    fst (score_table type_order scores) = Ok tt.
Proof.
  unfold well_shaped_result. rewrite !andb_true_iff.
  intros [[Hg Hr] _] -> Hc.
  destruct (float_mapping_raw _ Hg) as (mg & Eg & Hmg).
  destruct (float_mapping_raw _ Hr) as (mr & Er & Hmr).
  unfold scores_for. fold (given_scores d) in Eg. fold (raw_scores d) in Er.
  rewrite Eg, Er. simpl py_iter.
  assert (Htable : forall scores,
    (forall c, exists x, score_of scores (PStr c) = Ok x) ->
    fst (score_table (PList cats) scores) = Ok tt).
  { intros scores Hs. rewrite score_table_run. simpl py_iter.
    destruct (py_truthy (PList cats)); [|reflexivity].
    destruct (map_res_total (score_of scores) cats) as [score ->];
      [|reflexivity].
    intros a Ha. rewrite forallb_forall in Hc. specialize (Hc a Ha).
    destruct a; try discriminate. apply Hs. }
  destruct (negb (py_truthy (PDict mg)) && py_truthy (PList cats)).
  - destruct (align_scores_total mr cats Hmr Hc []) as [m' ->].
    eexists. split; [reflexivity|]. apply Htable. intros c. simpl. eauto.
  - eexists. split; [reflexivity|]. apply Htable. intros c.
    unfold score_of. rewrite py_get_dict_str.
    destruct (float_mapping_get mg c Hmg) as [x ->]. simpl. eauto.
Qed.

Lemma dict_or_null_or (v : pyval) :
  dict_or_null v = true -> exists m, py_or v (PDict []) = PDict m.
Proof.
  unfold py_or. destruct v; try discriminate; simpl; eauto.
  destruct d; simpl; eauto.
Qed.

Lemma well_shaped_meta (d : dict) :
  well_shaped_result d = true ->
  exists sm sev_meta,
    py_get (item_meta d) (PStr "severity_meta") (PDict []) = Ok sm /\
    py_or sm (PDict []) = PDict sev_meta /\
    style_flag d = dict_get sev_meta "implicit_explicit" (PInt 0).
Proof.
  unfold well_shaped_result. rewrite !andb_true_iff. intros [_ Hm].
  unfold style_flag, item_meta.
  assert (E : exists meta,
    py_or (dict_get d "meta" (PDict [])) (PDict []) = PDict meta /\
    dict_or_null (dict_get meta "severity_meta" (PDict [])) = true).
  { unfold py_or.
    destruct (dict_get d "meta" (PDict [])) as [| | | | | |meta];
      try discriminate; simpl.
    - exists []. now split.
    - destruct meta; simpl; [exists []; now split|eauto]. }
  destruct E as (meta & -> & Hs). rewrite py_get_dict_str.
  destruct (dict_or_null_or _ Hs) as [sev_meta E].
  exists (dict_get meta "severity_meta" (PDict [])), sev_meta.
  rewrite E. auto.
Qed.

Lemma run_rewrite_total (w : world) (i : widgets) idx text top_label
  (severity : str) :
  (rewrite_button i idx = true ->
   forall mit, call_mitigate w idx text = Ok mit ->
     well_shaped_answer mit = true /\
     exists s, dict_get mit "severity" (PStr severity) = PStr s) ->
  fst (run_rewrite w i idx text (PStr severity) top_label) = Ok tt.
Proof.
  intros H. unfold run_rewrite.
  rewrite fst_bind. cbn [fst emit].
  destruct (rewrite_button i idx); [|reflexivity].
  repeat (rewrite fst_bind; cbn [fst emit]).
  destruct (call_mitigate w idx text) as [mit|e]; [|reflexivity].
  destruct (H eq_refl mit eq_refl) as [Hm [s Hs]].
  destruct (dict_or_null_or _ Hm) as [meta Em].
  apply (render_mitigation_total w idx _ top_label mit s
           (dict_get meta "top_label" top_label) Hs).
  unfold meta_of. now rewrite Em.
Qed.

Lemma keys_are_str (m : dict) :
  forallb is_str (map (fun kv => PStr (fst kv)) m) = true.
Proof. induction m as [|kv r IH]; simpl; auto. Qed.

Lemma categories_total (d : dict) (cats : list pyval) :
  well_shaped_result d = true -> forallb is_str cats = true ->
  exists cats', categories_for (PList cats) d = Ok (PList cats') /\
                forallb is_str cats' = true.
Proof.
  unfold well_shaped_result. rewrite !andb_true_iff. intros [[_ Hr] _] Hc.
  unfold categories_for. destruct (py_truthy (PList cats)); [eauto|].
  destruct (float_mapping_raw _ Hr) as (mr & Er & _).
  fold (raw_scores d) in Er. rewrite Er. simpl.
  exists (map (fun kv => PStr (fst kv)) mr). split; [reflexivity|].
  apply keys_are_str.
Qed.

(** A result of the expected shape renders whatever string its severity
    and whatever scalar its style flag are. *)
Lemma render_item_total (w : world) (i : widgets) idx cats d
  (severity : str) :
  forallb is_str cats = true ->
  well_shaped_result d = true ->
  dict_get d "severity" (PStr "none") = PStr severity ->
  hashable (style_flag d) = true ->
  (rewrite_button i idx = true ->
   forall mit,
     call_mitigate w idx (dict_get d "text" (PStr "")) = Ok mit ->
     well_shaped_answer mit = true /\
     exists s, dict_get mit "severity" (PStr severity) = PStr s) ->
  exists cats', fst (render_item w i idx (PList cats) (PDict d)) = Ok cats'.
Proof.
  intros Hc Hd Hs Hf Hmit.
  destruct (well_shaped_meta d Hd) as (sm & sev_meta & Esm & Eor & Eflag).
  destruct (categories_total d cats Hd Hc) as (cats' & Ecats & Hc').
  destruct (score_table_total (PList cats') d cats' Hd eq_refl Hc')
    as (scores & Escores & Etable).
  rewrite Eflag in Hf.
  destruct (implicit_label_total _ Hf) as [label Elabel].
  pose proof (run_rewrite_total w i idx (dict_get d "text" (PStr ""))
                (dict_get sev_meta "top_label" (dict_get d "top_label" PNone))
                severity Hmit) as Epanel.
  exists (PList cats').
  rewrite (render_item_run w i idx (PList cats) d sm
             (dict_get sev_meta "top_label" (dict_get d "top_label" PNone))
             severity (PList cats') scores
             (dict_get sev_meta "implicit_explicit" (PInt 0)) label);
    try assumption; try (rewrite Eor; apply py_get_dict_str).
  cbn [fst]. now rewrite Etable, Epanel.
Qed.


(** C7 (as amended). Values outside the enumerated sets do not make
    rendering fail as long as the severity is a string and the style flag
    is a scalar (null, boolean, number or string), whatever the mode is:
    - a scalar flag always gets a label, and the label is unknown when
      the flag equals none of 0, 1, 2;
    - a severity string other than high, medium and low gets the gray
      badge;
    - an answer of the expected shape renders for every mode value and
      every severity string, and a mode other than advisory and rewrite
      is given the closing sentence of the default branch;
    - a result of the expected shape renders for every severity string
      and every scalar style flag. *)
Theorem unrecognised_values_render :
  (forall flag : pyval,
      hashable flag = true ->
      (exists label, implicit_label flag = Ok label) /\
      (unrecognised_flag flag -> implicit_label flag = Ok "unknown")) /\
  (forall s : str,
      s <> lit "high" -> s <> lit "medium" -> s <> lit "low" ->
      badge_color (PStr s) = Ok (PStr "#d9d9d9")) /\
  (forall (w : world) idx severity top_label mit (s : str),
      well_shaped_answer mit = true ->
      dict_get mit "severity" severity = PStr s ->
      fst (render_mitigation w idx severity top_label mit) = Ok tt /\
      (dict_get mit "mode" (PStr "rewrite") <> PStr "advisory" ->
       dict_get mit "mode" (PStr "rewrite") <> PStr "rewrite" ->
       In (mode_explanation (not_proposed_a_rewrite (PStr s)))
          (snd (render_mitigation w idx severity top_label mit)))) /\
  (forall (w : world) (i : widgets) idx cats d (severity : str),
      forallb is_str cats = true ->
      well_shaped_result d = true ->
      dict_get d "severity" (PStr "none") = PStr severity ->
      hashable (style_flag d) = true ->
      (rewrite_button i idx = true ->
       forall mit,
         call_mitigate w idx (dict_get d "text" (PStr "")) = Ok mit ->
         well_shaped_answer mit = true /\
         exists s, dict_get mit "severity" (PStr severity) = PStr s) ->
      exists cats',
        fst (render_item w i idx (PList cats) (PDict d)) = Ok cats').
Proof.
  split; [|split; [|split]].
  - intros flag Hf. split.
    + now apply implicit_label_total.
    + now apply implicit_label_unknown.
  - exact badge_color_default.
  - intros w idx severity top_label mit s Hm Hs.
    destruct (dict_or_null_or _ Hm) as [meta Em].
    assert (Hok : fst (render_mitigation w idx severity top_label mit) = Ok tt).
    { apply (render_mitigation_total w idx _ top_label mit s
               (dict_get meta "top_label" top_label) Hs).
      unfold meta_of. now rewrite Em. }
    split; [exact Hok|]. intros Ha Hr.
    destruct (render_mitigation_ok _ _ _ _ _ Hok)
      as (s' & color & primary_cat & Hs' & _ & _ & Ht).
    rewrite Hs in Hs'. injection Hs' as <-.
    rewrite Ht. apply panel_closing. unfold closing.
    apply py_eq_str_false in Ha, Hr. now rewrite Ha, Hr.
  - exact render_item_total.
Qed.

(** ** Category fallback *)

(** The first result rendered while no category ordering is known takes
    its ordering from the keys of its own raw scores. *)
Lemma fallback_takes_own_keys (w : world) (i : widgets) idx
  (type_order : pyval) (d : dict) (cats : pyval) :
  py_truthy type_order = false ->
  fst (render_item w i idx type_order (PDict d)) = Ok cats ->
  py_keys (raw_scores d) = Ok cats /\
  forall table,
    In table (dataframes (snd (render_item w i idx type_order (PDict d)))) ->
    fst table = cats.
Proof.
  intros Hto H.
  destruct (render_item_ok _ _ _ _ _ _ H)
    as (d' & sm & top_label & severity & scores & flag & label & E & _ & _ & _
        & Hc & _ & _ & _ & Ht & _ & Htrace).
  injection E as <-. unfold categories_for in Hc. rewrite Hto in Hc.
  split; [exact Hc|]. intros table.
  rewrite Htrace, !dataframes_app.
  rewrite (no_dataframes_in_mitigation _ (only_run_rewrite _ _ _ _ _ _)).
  rewrite score_table_run in Ht |- *.
  destruct (py_truthy cats).
  - destruct (py_iter cats) as [l|]; [|discriminate Ht].
    destruct (map_res (score_of scores) l) as [score|]; [|discriminate Ht].
    unfold item_middle. destruct (load_logo w); simpl;
      intros [<-|[]]; reflexivity.
  - unfold item_middle. destruct (load_logo w); simpl; intros [].
Qed.

(** *** The ordering across the results of one run *)





End Claims.

(** * Concrete runs (floats read as binary64) *)

Definition entry (k : string) (v : @pyval binary64) : str * @pyval binary64 :=
  (lit k, v).

Definition score (x : PrimFloat.float) : @pyval binary64 := @PFloat binary64 x.

Definition demo_text : str := "Women are bad drivers.".

Definition demo_cats : list (@pyval binary64) :=
  [PStr "racial"; PStr "sexist"; PStr "ageism"].

Definition demo_result_fields : @dict binary64 :=
  [entry "text" (PStr demo_text);
   entry "scores" (PDict [entry "sexist" (score 0.75);
                          entry "racial" (score 0.125)]);
   entry "top_label" (PStr "sexist");
   entry "severity" (PStr "medium");
   entry "meta"
     (PDict [entry "severity_meta"
               (PDict [entry "top_label" (PStr "sexist");
                       entry "implicit_explicit" (PInt 1)])])].

Definition demo_result : @pyval binary64 := PDict demo_result_fields.

Definition demo_infer_answer : @dict binary64 :=
  [entry "device" (PStr "cpu");
   entry "type_order" (PList demo_cats);
   entry "results" (PList [demo_result])].

Definition demo_mitigate_answer : @dict binary64 :=
  [entry "mode" (PStr "rewrite");
   entry "severity" (PStr "medium");
   entry "advisory" (PStr "This generalises about a group.");
   entry "rewritten" (PStr "Some drivers make mistakes.");
   entry "meta" (PDict [entry "top_label" (PStr "sexist")])].

(** A backend that is up. *)
Definition demo_world : @world binary64 := {|
  load_logo := true;
  call_health := Ok [entry "device" (PStr "cpu")];
  call_infer := fun _ => Ok demo_infer_answer;
  call_mitigate := fun _ _ => Ok demo_mitigate_answer;
  synthesize := fun _ _ => Ok tt |}.

(** A backend that cannot be reached. *)
Definition offline_world : @world binary64 := {|
  load_logo := true;
  call_health := Raise (ServiceError "Connection refused");
  call_infer := fun _ => Raise (ServiceError "Connection refused");
  call_mitigate := fun _ _ => Raise (ServiceError "Connection refused");
  synthesize := fun _ _ => Ok tt |}.

(** The user presses Analyze on the default text. *)
Definition press_analyze : widgets := {|
  text_single := demo_text;
  run_button := true;
  rewrite_button := fun _ => false |}.

(** The user presses Run Rewrite on the first result. *)
Definition press_rewrite : widgets := {|
  text_single := demo_text;
  run_button := false;
  rewrite_button := fun idx => Nat.eqb idx 0 |}.

(** The page is merely reloaded. *)
Definition idle : widgets := {|
  text_single := demo_text;
  run_button := false;
  rewrite_button := fun _ => false |}.

(** The session an Analyze run against the live backend leaves (see
    [after_analysis_is_stored]). *)
Definition after_analysis : @session binary64 := {|
  infer_results := PList [demo_result];
  type_order := PList demo_cats;
  device := PStr "cpu";
  backend_device := PStr "cpu" |}.

(** An answer with mode none that nevertheless carries a rewrite. *)
Definition none_with_rewrite : @dict binary64 :=
  [entry "mode" (PStr "none");
   entry "severity" (PStr "low");
   entry "advisory" (PStr "Mild wording.");
   entry "rewritten" (PStr "Some drivers make mistakes.")].

(** An answer with mode none and no rewrite. *)
Definition none_without_rewrite : @dict binary64 :=
  [entry "mode" (PStr "none");
   entry "severity" (PStr "low");
   entry "advisory" (PStr "");
   entry "rewritten" PNone].

(** An answer that has no mode key. *)
Definition answer_without_mode : @dict binary64 :=
  [entry "severity" (PStr "medium");
   entry "advisory" (PStr "This generalises about a group.");
   entry "rewritten" (PStr "Some drivers make mistakes.")].

(** A result whose severity and style flag are outside their sets. *)
Definition strange_result_fields : @dict binary64 :=
  [entry "text" (PStr demo_text);
   entry "scores" (PDict [entry "sexist" (score 0.75)]);
   entry "severity" (PStr "critical");
   entry "meta"
     (PDict [entry "severity_meta"
               (PDict [entry "implicit_explicit" (PInt 7)])])].

Definition strange_world : @world binary64 := {|
  load_logo := false;
  call_health := Ok [entry "device" (PStr "cpu")];
  call_infer := fun _ => Ok demo_infer_answer;
  call_mitigate := fun _ _ =>
    Ok [entry "mode" (PStr "escalate"); entry "severity" (PStr "critical")];
  synthesize := fun _ _ => Ok tt |}.

(** The demo result with a JSON array as style flag. *)
Definition list_flag_result : @pyval binary64 :=
  PDict [entry "text" (PStr demo_text);
         entry "scores" (PDict [entry "sexist" (score 0.75);
                                entry "racial" (score 0.125)]);
         entry "top_label" (PStr "sexist");
         entry "severity" (PStr "medium");
         entry "meta"
           (PDict [entry "severity_meta"
                     (PDict [entry "top_label" (PStr "sexist");
                             entry "implicit_explicit" (PList [])])])].






(** ** C1 *)

Lemma demo_text_not_blank : strip demo_text <> [].
Proof. vm_compute. discriminate. Qed.

Example after_analysis_is_stored :
  snd (fst (script demo_world press_analyze None)) = after_analysis.
Proof. reflexivity. Qed.

Lemma analyze_sends_exactly_the_text_witness :
  run_button press_analyze = true /\
  strip (text_single press_analyze) <> [] /\
  infer_calls (snd (script demo_world press_analyze None)) = [[demo_text]].
Proof.
  split; [reflexivity|]. split; [exact demo_text_not_blank|].
  exact (proj1 (proj2 (analyze_sends_exactly_the_text
                         demo_world press_analyze None eq_refl)
                  demo_text_not_blank)).
Defined.

(** ** C4 *)

Lemma analyze_replaces_or_keeps_witness :
  run_button press_analyze = true /\
  strip (text_single press_analyze) <> [] /\
  device (snd (fst (script demo_world press_analyze None)))
  = dict_get demo_infer_answer "device" (PStr "unknown").
Proof.
  split; [reflexivity|]. split; [exact demo_text_not_blank|].
  exact (proj1 (proj1 (analyze_replaces_or_keeps
                         demo_world press_analyze None eq_refl
                         demo_text_not_blank)
                  demo_infer_answer eq_refl)).
Defined.

(** ** C2 *)

Lemma demo_answer_renders :
  fst (render_mitigation demo_world 0 (PStr "medium") (PStr "sexist")
         demo_mitigate_answer) = Ok tt.
Proof. reflexivity. Qed.

Lemma demo_answer_has_rewrite :
  py_truthy (dict_get demo_mitigate_answer "rewritten" PNone) = true.
Proof. reflexivity. Qed.

Lemma speech_prefers_rewrite_then_advisory_witness :
  fst (render_mitigation demo_world 0 (PStr "medium") (PStr "sexist")
         demo_mitigate_answer) = Ok tt /\
  speech_calls
    (snd (render_mitigation demo_world 0 (PStr "medium") (PStr "sexist")
            demo_mitigate_answer))
  = [dict_get demo_mitigate_answer "rewritten" PNone].
Proof.
  split; [exact demo_answer_renders|].
  exact (proj1 (proj2 (speech_prefers_rewrite_then_advisory
                         demo_world 0 (PStr "medium") (PStr "sexist")
                         demo_mitigate_answer demo_answer_renders))
           demo_answer_has_rewrite).
Defined.

(** ** C3 *)

Lemma after_analysis_renders :
  fst (results_section demo_world idle after_analysis) = Ok tt.
Proof. reflexivity. Qed.

Lemma demo_cats_not_empty : demo_cats <> [].
Proof. discriminate. Qed.

Lemma every_table_follows_type_order_witness :
  Forall2 (table_for demo_cats) [demo_result]
    (dataframes (snd (results_section demo_world idle after_analysis))).
Proof.
  exact (every_table_follows_type_order demo_world idle after_analysis
           demo_cats [demo_result] eq_refl demo_cats_not_empty eq_refl
           after_analysis_renders).
Defined.

(** The table of the demo result: the category missing from its scores
    is shown with 0.0. *)
Example demo_table :
  dataframes (snd (results_section demo_world idle after_analysis))
  = [(PList demo_cats, [0.125; 0.75; 0]%float)].
Proof. reflexivity. Qed.

(** ** C5 *)

(** C5, counterexample: an answer with mode none and a non-empty
    rewritten text renders, shows the not-proposed-a-rewrite message and
    still presents the rewritten text in a code block. *)
Lemma mode_none_can_show_code_block :
  dict_lookup "mode" none_with_rewrite = Some (PStr "none") /\
  fst (render_mitigation demo_world 0 (PStr "low") PNone none_with_rewrite)
  = Ok tt /\
  In (mode_explanation (not_proposed_a_rewrite (PStr "low")))
     (snd (render_mitigation demo_world 0 (PStr "low") PNone
             none_with_rewrite)) /\
  In (st_code (PStr "Some drivers make mistakes."))
     (snd (render_mitigation demo_world 0 (PStr "low") PNone
             none_with_rewrite)).
Proof. cbv -[binary64]. intuition. Qed.

Lemma none_without_rewrite_mode :
  dict_lookup "mode" none_without_rewrite = Some (PStr "none").
Proof. reflexivity. Qed.

Lemma none_without_rewrite_renders :
  fst (render_mitigation demo_world 0 (PStr "low") PNone
         none_without_rewrite) = Ok tt.
Proof. reflexivity. Qed.

Lemma mode_none_message_and_code_block_witness :
  dict_lookup "mode" none_without_rewrite = Some (PStr "none") /\
  fst (render_mitigation demo_world 0 (PStr "low") PNone
         none_without_rewrite) = Ok tt /\
  exists m_severity,
    In (mode_explanation (not_proposed_a_rewrite m_severity))
       (snd (render_mitigation demo_world 0 (PStr "low") PNone
               none_without_rewrite)).
Proof.
  split; [exact none_without_rewrite_mode|].
  split; [exact none_without_rewrite_renders|].
  exact (proj1 (mode_none_message_and_code_block
                  demo_world 0 (PStr "low") PNone none_without_rewrite
                  none_without_rewrite_mode none_without_rewrite_renders)).
Defined.

(** ** C6 *)

(** C6, counterexample: after an Analyze run against the live backend,
    a reload during which /health cannot be reached shows the failure
    message, yet the performance indicator shows the CPU mode stored by
    the earlier run, not Unknown. *)
Lemma stored_device_outlives_health_failure :
  call_health offline_world = Raise (ServiceError "Connection refused") /\
  In (st_error_health (ServiceError "Connection refused"))
     (snd (script offline_world idle (Some after_analysis))) /\
  In (performance_badge "#faad14" "Standard CPU Mode")
     (snd (script offline_world idle (Some after_analysis))) /\
  ~ In performance_unknown
      (snd (script offline_world idle (Some after_analysis))).
Proof.
  split; [reflexivity|]. cbv -[binary64].
  split; [intuition|]. split; [intuition|].
  intros H. repeat (destruct H as [H|H]; [discriminate H|]). exact H.
Qed.

Lemma health_failure_keeps_page_usable_witness :
  call_health offline_world = Raise (ServiceError "Connection refused") /\
  In (st_error_health (ServiceError "Connection refused"))
     (snd (script offline_world idle None)) /\
  In performance_unknown (snd (script offline_world idle None)).
Proof.
  split; [reflexivity|].
  pose proof (health_failure_keeps_page_usable offline_world idle None
                (ServiceError "Connection refused") eq_refl) as H.
  cbv zeta in H. destruct H as (Herr & _ & _ & _ & _ & Hperf).
  split; [exact Herr|]. apply Hperf. reflexivity.
Defined.

(** ** C7 *)

(** C7, counterexample: the demo result renders, and the same result
    with a JSON array as style flag, everything else unchanged, makes
    rendering raise. *)
Lemma unhashable_flag_stops_rendering :
  fst (render_item demo_world idle 0 (PList demo_cats) demo_result)
  = Ok (PList demo_cats) /\
  fst (render_item demo_world idle 0 (PList demo_cats) list_flag_result)
  = Raise TypeError.
Proof. split; reflexivity. Qed.

Lemma unrecognised_values_render_witness :
  exists cats',
    fst (render_item strange_world press_rewrite 0 (PList demo_cats)
           (PDict strange_result_fields)) = Ok cats'.
Proof.
  refine (proj2 (proj2 (proj2 unrecognised_values_render))
            strange_world press_rewrite 0 demo_cats strange_result_fields
            (lit "critical") eq_refl _ _ _ _).
  - reflexivity.
  - reflexivity.
  - reflexivity.
  - intros _ mit H. injection H as <-. split.
    + reflexivity.
    + exists (lit "critical"). reflexivity.
Defined.

(** The strange result is labelled unknown and its mitigation panel ends
    with the sentence of the default branch. *)
Example strange_result_shown :
  In (severity_line "critical" "unknown")
     (snd (render_item strange_world press_rewrite 0 (PList demo_cats)
             (PDict strange_result_fields))) /\
  In (mode_explanation (not_proposed_a_rewrite (PStr "critical")))
     (snd (render_item strange_world press_rewrite 0 (PList demo_cats)
             (PDict strange_result_fields))).
Proof. cbv -[binary64]. intuition. Qed.

(** ** C8 *)




Lemma fallback_takes_own_keys_witness :
  py_keys (raw_scores strange_result_fields) = Ok (PList [PStr "sexist"]).
Proof.
  refine (proj1 (fallback_takes_own_keys strange_world idle 0 (PList [])
                   strange_result_fields (PList [PStr "sexist"]) eq_refl _)).
  reflexivity.
Defined.

(** ** C10 *)

Lemma answer_without_mode_renders :
  fst (render_mitigation demo_world 0 (PStr "medium") PNone
         answer_without_mode) = Ok tt.
Proof. reflexivity. Qed.

Lemma missing_mode_means_rewrite_witness :
  fst (render_mitigation demo_world 0 (PStr "medium") PNone
         answer_without_mode) = Ok tt /\
  In (mode_explanation rewrite_mode)
     (snd (render_mitigation demo_world 0 (PStr "medium") PNone
             answer_without_mode)).
Proof.
  split; [exact answer_without_mode_renders|].
  refine (proj1 (proj1 (missing_mode_means_rewrite
                          demo_world 0 (PStr "medium") PNone
                          answer_without_mode answer_without_mode_renders)
                   _)).
  reflexivity.
Defined.

(** * Further properties of a run *)

Section Pages.

Context {F : PyFloat}.

(** ** More readers of a trace *)

(** Every call that leaves the process, in order. *)
Fixpoint outside_calls (t : list event) : list event :=
  match t with
  | [] => []
  | GET_health :: r => GET_health :: outside_calls r
  | POST_infer ts :: r => POST_infer ts :: outside_calls r
  | POST_mitigate text :: r => POST_mitigate text :: outside_calls r
  | gTTS text :: r => gTTS text :: outside_calls r
  | _ :: r => outside_calls r
  end.

Fixpoint mitigate_calls (t : list event) : list pyval :=
  match t with
  | [] => []
  | POST_mitigate text :: r => text :: mitigate_calls r
  | _ :: r => mitigate_calls r
  end.

(** The performance indicators shown. *)
Fixpoint indicators (t : list event) : list event :=
  match t with
  | [] => []
  | performance_badge c l :: r => performance_badge c l :: indicators r
  | performance_unknown :: r => performance_unknown :: indicators r
  | _ :: r => indicators r
  end.

(** The device badges of the sidebar. *)
Fixpoint device_badges (t : list event) : list (string * string) :=
  match t with
  | [] => []
  | device_badge c x :: r => (c, x) :: device_badges r
  | _ :: r => device_badges r
  end.

(** The result expanders: number in the label, label, open or closed. *)
Fixpoint expanders (t : list event) : list (nat * pyval * bool) :=
  match t with
  | [] => []
  | st_expander n top open :: r => (n, top, open) :: expanders r
  | _ :: r => expanders r
  end.

Lemma outside_calls_app (a b : list event) :
  outside_calls (a ++ b) = outside_calls a ++ outside_calls b.
Proof.
  induction a as [|e a IH]; simpl; [reflexivity|].
  destruct e; simpl; now rewrite ?IH.
Qed.

Lemma mitigate_calls_app (a b : list event) :
  mitigate_calls (a ++ b) = mitigate_calls a ++ mitigate_calls b.
Proof.
  induction a as [|e a IH]; simpl; [reflexivity|].
  destruct e; simpl; now rewrite ?IH.
Qed.

Lemma indicators_app (a b : list event) :
  indicators (a ++ b) = indicators a ++ indicators b.
Proof.
  induction a as [|e a IH]; simpl; [reflexivity|].
  destruct e; simpl; now rewrite ?IH.
Qed.

Lemma device_badges_app (a b : list event) :
  device_badges (a ++ b) = device_badges a ++ device_badges b.
Proof.
  induction a as [|e a IH]; simpl; [reflexivity|].
  destruct e; simpl; now rewrite ?IH.
Qed.

Lemma expanders_app (a b : list event) :
  expanders (a ++ b) = expanders a ++ expanders b.
Proof.
  induction a as [|e a IH]; simpl; [reflexivity|].
  destruct e; simpl; now rewrite ?IH.
Qed.

Lemma below_no_indicators (t : list event) :
  forallb below t = true -> indicators t = [] /\ device_badges t = [].
Proof.
  induction t as [|e t IH]; simpl; [auto|].
  rewrite andb_true_iff. intros [He Ht]. unfold below in He.
  destruct e; simpl in *; auto; discriminate.
Qed.

Lemma foot_quiet (r : res unit) :
  let foot := match r with Ok _ => page_foot | Raise _ => [] end in
  outside_calls foot = [] /\ indicators foot = [] /\ device_badges foot = [].
Proof. now destruct r. Qed.

(** ** Reloads *)

(** A quiet event is no call to an outside service. *)
Definition quiet (e : event) : bool :=
  match e with
  | GET_health | POST_infer _ | POST_mitigate _ | gTTS _ => false
  | _ => true
  end.

Lemma quiet_outside_calls (t : list event) :
  forallb quiet t = true -> outside_calls t = [].
Proof.
  induction t as [|e t IH]; simpl; [reflexivity|].
  rewrite andb_true_iff. intros [He Ht].
  destruct e; simpl in *; auto; discriminate.
Qed.

Lemma quiet_run_rewrite (w : world) (i : widgets) idx text severity top_label :
  rewrite_button i idx = false ->
  only quiet (run_rewrite w i idx text severity top_label).
Proof. intros H. unfold run_rewrite. rewrite H. repeat only_step. Qed.

Lemma quiet_render_item (w : world) (i : widgets) idx type_order item :
  rewrite_button i idx = false ->
  only quiet (render_item w i idx type_order item).
Proof.
  intros H. unfold render_item, score_table.
  repeat first [ apply quiet_run_rewrite; exact H | only_step ].
Qed.

Lemma quiet_results_loop (w : world) (i : widgets) items :
  (forall idx, rewrite_button i idx = false) ->
  forall idx type_order, only quiet (results_loop w i idx type_order items).
Proof.
  intros H. induction items as [|item rest IH]; intros idx type_order; simpl.
  - apply only_ret.
  - apply only_bind; [now apply quiet_render_item | intros a; apply IH].
Qed.

Lemma quiet_results_section (w : world) (i : widgets) (s : session) :
  (forall idx, rewrite_button i idx = false) ->
  only quiet (results_section w i s).
Proof.
  intros H. unfold results_section.
  repeat first [ now apply quiet_results_loop | only_step ].
Qed.

Lemma sidebar_outside_calls (w : world) (s : session) :
  outside_calls (snd (sidebar w s)) = [GET_health].
Proof.
  unfold sidebar. destruct (call_health w), (load_logo w); reflexivity.
Qed.

Lemma page_head_quiet (s : session) : outside_calls (page_head s) = [].
Proof.
  unfold page_head, performance_indicator.
  now destruct (py_truthy (py_or (device s) (backend_device s))).
Qed.

(** X2. A run in which no button is pressed makes exactly one call to
    the outside: the health check.  Whatever the session holds, nothing
    is sent to /v1/infer, /v1/mitigate or the speech service. *)
Theorem reload_only_checks_health
  (w : world) (i : widgets) (prev : option session) :
  run_button i = false ->
  (forall idx, rewrite_button i idx = false) ->
  outside_calls (snd (script w i prev)) = [GET_health].
Proof.
  intros Hrun Hrw. rewrite script_trace. cbv zeta.
  rewrite !outside_calls_app, sidebar_outside_calls, page_head_quiet.
  rewrite (quiet_outside_calls _ (quiet_results_section _ _ _ Hrw)).
  unfold analyze. rewrite Hrun. simpl.
  now destruct (fst (results_section _ _ _)).
Qed.

(** ** What a run stores *)

Lemma sidebar_session (w : world) (s : session) :
  fst (sidebar w s) =
    match call_health w with
    | Ok h => set_backend_device s (dict_get h "device" (PStr "n/a"))
    | Raise _ => s
    end.
Proof. unfold sidebar. now destruct (call_health w). Qed.

Lemma session_backend_device (w : world) (i : widgets) (prev : option session) :
  backend_device (snd (fst (script w i prev))) =
    match call_health w with
    | Ok h => dict_get h "device" (PStr "n/a")
    | Raise _ => backend_device (init_session prev)
    end.
Proof.
  rewrite script_session, sidebar_session. unfold analyze.
  destruct (run_button i);
    [destruct (texts (text_single i)) as [|a l];
     [|destruct (call_infer w (a :: l))]|];
    now destruct (call_health w).
Qed.

(** X3. The session changes in two places only.  The health check
    stores its device (n/a when the answer has none) as backend_device,
    and leaves it alone when the check fails.  Device, type_order and
    results are left exactly as they were unless Analyze was pressed on a
    non-blank text and /v1/infer answered; what is rendered afterwards,
    and whether rendering raised, plays no part. *)
Theorem session_changes_only_by_health_and_analyze
  (w : world) (i : widgets) (prev : option session) :
  let before := init_session prev in
  let after := snd (fst (script w i prev)) in
  backend_device after =
    match call_health w with
    | Ok h => dict_get h "device" (PStr "n/a")
    | Raise _ => backend_device before
    end /\
  ((infer_results after, type_order after, device after)
   <> (infer_results before, type_order before, device before) ->
   run_button i = true /\ strip (text_single i) <> [] /\
   exists infer_res, call_infer w [text_single i] = Ok infer_res).
Proof.
  cbv zeta. rewrite script_session, sidebar_session.
  set (s0 := init_session prev).
  unfold analyze. destruct (run_button i).
  - unfold texts. destruct (strip (text_single i)) as [|c r] eqn:Es.
    + split; [now destruct (call_health w)|].
      intros H; exfalso; apply H. now destruct (call_health w).
    + destruct (call_infer w [text_single i]) as [infer_res|e].
      * split; [now destruct (call_health w)|].
        intros _. repeat split; [discriminate|eauto].
      * split; [now destruct (call_health w)|].
        intros H; exfalso; apply H. now destruct (call_health w).
  - split; [now destruct (call_health w)|].
    intros H; exfalso; apply H. now destruct (call_health w).
Qed.

Lemma sidebar_twice (w : world) (s : session) :
  sidebar w (fst (sidebar w s)) = sidebar w s.
Proof. unfold sidebar. now destruct (call_health w). Qed.

(** X4. A rerun is stable: when Analyze is not pressed, running the
    script again on the session the run left, with the same widget values
    and the same answers from outside, gives the same outcome, the same
    session and the same page. *)
Theorem rerun_is_stable
  (w : world) (i : widgets) (prev : option session) :
  run_button i = false ->
  script w i (Some (snd (fst (script w i prev)))) = script w i prev.
Proof.
  intros Hrun. rewrite script_session.
  unfold script. cbn [init_session].
  assert (Ha : forall s, analyze w i s
                = (s, [st_static input_header; st_text_area (text_single i);
                       st_button_analyze])).
  { intros s. unfold analyze. now rewrite Hrun. }
  rewrite (Ha (fst (sidebar w (init_session prev)))). cbn [fst].
  rewrite sidebar_twice.
  destruct (sidebar w (init_session prev)) as [s1 side]. cbn [fst].
  now rewrite Ha.
Qed.

(** ** The performance indicator *)

Lemma analyze_no_indicators (w : world) (i : widgets) (s : session) :
  indicators (snd (analyze w i s)) = [] /\
  device_badges (snd (analyze w i s)) = [].
Proof.
  unfold analyze. destruct (run_button i); [|now split].
  destruct (texts (text_single i)) as [|a l]; [now split|].
  now destruct (call_infer w (a :: l)).
Qed.

Lemma sidebar_no_indicators (w : world) (s : session) :
  indicators (snd (sidebar w s)) = [].
Proof.
  unfold sidebar. destruct (call_health w), (load_logo w); reflexivity.
Qed.

Lemma page_head_indicators (s : session) :
  indicators (page_head s) = [performance_indicator s].
Proof.
  unfold page_head, performance_indicator.
  now destruct (py_truthy (py_or (device s) (backend_device s))).
Qed.

(** The device the indicator of this run goes by: the one stored by the
    last /v1/infer answer if it is truthy, else the one this run's health
    check returned, else the one an earlier health check stored. *)
Definition indicated_device (w : world) (before : session) : pyval :=
  if py_truthy (device before) then device before
  else match call_health w with
       | Ok h => dict_get h "device" (PStr "n/a")
       | Raise _ => backend_device before
       end.

(** X5. Every run shows exactly one performance indicator, and it goes
    by [indicated_device]: Unknown when that device is falsy, the GPU
    mode when it is the string cuda, the CPU mode for every other value.
    The /v1/infer answer of the same run has no influence on it: a newly
    stored device shows from the next run on. *)
Theorem one_indicator_from_stored_device
  (w : world) (i : widgets) (prev : option session) :
  let d := indicated_device w (init_session prev) in
  indicators (snd (script w i prev)) =
    [if py_truthy d then
       if py_eq_str d "cuda"
       then performance_badge "#52c41a" "Ultra-fast GPU Mode"
       else performance_badge "#faad14" "Standard CPU Mode"
     else performance_unknown].
Proof.
  cbv zeta. rewrite script_trace. cbv zeta.
  rewrite !indicators_app, sidebar_no_indicators, page_head_indicators.
  rewrite (proj1 (analyze_no_indicators _ _ _)).
  rewrite (proj1 (below_no_indicators _ (only_results_section _ _ _))).
  rewrite (proj1 (proj2 (foot_quiet _))). simpl.
  f_equal. rewrite sidebar_session.
  unfold performance_indicator, indicated_device, py_or.
  set (s := init_session prev).
  destruct (call_health w) as [h|e];
    cbn [device backend_device set_backend_device];
    destruct (py_truthy (device s)) eqn:Ed; rewrite ?Ed;
    repeat match goal with
           | |- context [if ?b then _ else _] => destruct b
           end;
    reflexivity.
Qed.

(** ** The sidebar when the backend answers *)

Lemma page_head_no_badges (s : session) : device_badges (page_head s) = [].
Proof.
  unfold page_head, performance_indicator.
  now destruct (py_truthy (py_or (device s) (backend_device s))).
Qed.

(** X6. When /health answers, the page reports the device the answer
    names (n/a when it names none) and shows exactly one device badge:
    GPU Acceleration in green when that device is the string cuda, CPU
    Mode in gray for anything else, a missing device included; no health
    error is shown. *)
Theorem health_answer_gives_one_badge
  (w : world) (i : widgets) (prev : option session) (h : dict) :
  call_health w = Ok h ->
  let d := dict_get h "device" (PStr "n/a") in
  let t := snd (script w i prev) in
  In (st_success_api_ok d) t /\
  device_badges t =
    [if py_eq_str d "cuda" then ("#52c41a", "GPU Acceleration")
     else ("#d9d9d9", "CPU Mode")] /\
  (forall e, ~ In (st_error_health e) t).
Proof.
  intros Hh d t. subst d t. rewrite script_trace. cbv zeta.
  assert (Hside : snd (sidebar w (init_session prev)) =
    (if load_logo w then [st_logo false] else [])
    ++ [st_static about_this_api; st_static models; st_static backend_status;
        GET_health; st_success_api_ok (dict_get h "device" (PStr "n/a"));
        device_badge
          (if py_eq_str (dict_get h "device" (PStr "n/a")) "cuda"
           then "#52c41a" else "#d9d9d9")
          (if py_eq_str (dict_get h "device" (PStr "n/a")) "cuda"
           then "GPU Acceleration" else "CPU Mode");
        st_static api_details; st_static legal_notice]).
  { unfold sidebar. now rewrite Hh. }
  rewrite Hside. split; [|split].
  - apply in_or_app. left. apply in_or_app. right. simpl. auto 6.
  - rewrite !device_badges_app, page_head_no_badges.
    rewrite (proj2 (analyze_no_indicators _ _ _)).
    rewrite (proj2 (below_no_indicators _ (only_results_section _ _ _))).
    rewrite (proj2 (proj2 (foot_quiet _))).
    destruct (load_logo w), (py_eq_str _ "cuda"); reflexivity.
  - intros e. rewrite <- Hside. rewrite !in_app_iff.
    intros [H|[H|[H|[H|H]]]].
    + apply in_sidebar in H. rewrite Hh in H.
      destruct H as [H|[H|[[b H]|[(d & _ & [H|(c & x & H)])|(x & E & _)]]]];
        discriminate.
    + apply not_in_page_head in H. destruct H as [H|[b H]]; [|discriminate].
      destruct (performance_indicator_cases
                  (fst (sidebar w (init_session prev)))) as [E|(c & l & E)];
        rewrite E in H; discriminate.
    + unfold analyze in H.
      destruct (run_button i); [destruct (texts (text_single i)) as [|a l];
        [|destruct (call_infer w (a :: l))]|];
        simpl in H;
        repeat (destruct H as [H|H]; [discriminate|]); destruct H.
    + apply (below_In _ (only_results_section _ _ _)) in H. discriminate.
    + apply in_page_foot in H. destruct H as [b H]. discriminate.
Qed.

End Pages.

Section Results.

Context {F : PyFloat}.

(** ** The parts of one rendered result *)

Lemma score_table_plain (type_order : pyval) (scores : score_map) :
  expanders (snd (score_table type_order scores)) = [] /\
  mitigate_calls (snd (score_table type_order scores)) = [] /\
  speech_calls (snd (score_table type_order scores)) = [].
Proof.
  rewrite score_table_run. destruct (py_truthy type_order); [|now repeat split].
  destruct (py_iter type_order) as [cats|]; [|now repeat split].
  now destruct (map_res (score_of scores) cats).
Qed.

Lemma item_middle_plain (w : world) (d : dict) :
  expanders (item_middle w d) = [] /\
  mitigate_calls (item_middle w d) = [] /\
  speech_calls (item_middle w d) = [].
Proof. unfold item_middle. now destruct (load_logo w). Qed.

Lemma mitigation_no_expanders (t : list event) :
  forallb of_mitigation t = true -> expanders t = [].
Proof.
  induction t as [|e t IH]; simpl; [reflexivity|].
  rewrite andb_true_iff. intros [He Ht].
  destruct e; simpl in *; auto; discriminate.
Qed.

(** ** The expander of a result *)

(** X7. The top category in the label of a result's expander is taken
    from severity_meta whenever severity_meta has a top_label key, and
    from the result's own top_label only when it has none; a falsy value
    (null, empty) is shown as none.  So a null top_label inside
    severity_meta is shown as none even when the result has a top_label
    of its own. *)
Theorem expander_prefers_severity_meta_label
  (w : world) (i : widgets) (idx : nat) (type_order : pyval) (d : dict)
  (cats : pyval) :
  fst (render_item w i idx type_order (PDict d)) = Ok cats ->
  exists sm sev_meta top,
    py_get (item_meta d) (PStr "severity_meta") (PDict []) = Ok sm /\
    py_or sm (PDict []) = PDict sev_meta /\
    expanders (snd (render_item w i idx type_order (PDict d)))
    = [(idx + 1, top, Nat.eqb idx 0)] /\
    (forall v, dict_lookup "top_label" sev_meta = Some v ->
               top = py_or v (PStr "none")) /\
    (dict_lookup "top_label" sev_meta = None ->
     top = py_or (dict_get d "top_label" PNone) (PStr "none")).
Proof.
  intros H.
  destruct (render_item_ok _ _ _ _ _ _ H)
    as (d' & sm & top_label & severity & scores & flag & label & E & Esm
        & Etop & _ & _ & _ & _ & _ & _ & _ & Htrace).
  injection E as <-.
  destruct (py_or sm (PDict [])) as [| | | | | |sev_meta] eqn:Eor;
    try discriminate Etop.
  rewrite py_get_dict_str in Etop. injection Etop as <-.
  exists sm, sev_meta,
    (py_or (dict_get sev_meta "top_label" (dict_get d "top_label" PNone))
       (PStr "none")).
  split; [exact Esm|]. split; [exact Eor|]. split; [|split].
  - rewrite Htrace, !expanders_app.
    rewrite (proj1 (score_table_plain _ _)), (proj1 (item_middle_plain _ _)).
    rewrite (mitigation_no_expanders _ (only_run_rewrite _ _ _ _ _ _)).
    reflexivity.
  - intros v Hv. unfold dict_get. now rewrite Hv.
  - intros Hv. unfold dict_get at 1. now rewrite Hv.
Qed.

(** ** Reading a whole results section *)

(** What a reader collects over the results, given what it collects for
    the result at each index. *)
Fixpoint per_item {A} (f : nat -> pyval -> list A) (idx : nat)
  (items : list pyval) : list A :=
  match items with
  | [] => []
  | item :: rest => f idx item ++ per_item f (S idx) rest
  end.

Lemma loop_reads {A} (w : world) (i : widgets)
  (read : list event -> list A) (f : nat -> pyval -> list A) :
  (forall a b, read (a ++ b) = read a ++ read b) ->
  (forall idx type_order item c,
      fst (render_item w i idx type_order item) = Ok c ->
      read (snd (render_item w i idx type_order item)) = f idx item) ->
  forall items idx type_order,
    fst (results_loop w i idx type_order items) = Ok tt ->
    read (snd (results_loop w i idx type_order items)) = per_item f idx items.
Proof.
  intros Happ Hitem. induction items as [|item rest IH];
    intros idx type_order; simpl.
  - intros _. specialize (Happ [] []). simpl in Happ.
    destruct (read []); [reflexivity|].
    apply (f_equal (@length A)) in Happ. rewrite length_app in Happ.
    simpl in Happ. lia.
  - rewrite fst_bind, snd_bind, Happ.
    destruct (fst (render_item w i idx type_order item)) as [c|] eqn:E;
      [|discriminate].
    intros H. now rewrite (Hitem _ _ _ _ E), (IH _ _ H).
Qed.

Lemma section_reads {A} (w : world) (i : widgets) (s : session)
  (read : list event -> list A) (f : nat -> pyval -> list A)
  (items : list pyval) :
  (forall a b, read (a ++ b) = read a ++ read b) ->
  (forall b, read [st_static b] = []) ->
  (forall d, read [model_device d] = []) ->
  (forall idx type_order item c,
      fst (render_item w i idx type_order item) = Ok c ->
      read (snd (render_item w i idx type_order item)) = f idx item) ->
  infer_results s = PList items ->
  fst (results_section w i s) = Ok tt ->
  read (snd (results_section w i s)) = per_item f 0 items.
Proof.
  intros Happ Hstatic Hdevice Hitem Hres. unfold results_section.
  rewrite Hres.
  destruct items as [|item rest].
  - intros _. simpl. specialize (Happ [] []). simpl in Happ.
    destruct (read []); [reflexivity|].
    apply (f_equal (@length A)) in Happ. rewrite length_app in Happ.
    simpl in Happ. lia.
  - cbn [py_truthy py_iter].
    repeat (rewrite fst_bind, snd_bind; cbn [fst snd emit lift app]).
    intros H.
    change (read ([st_static rule] ++ [model_device (device s)]
                  ++ [st_static rule]
                  ++ snd (results_loop w i 0 (type_order s) (item :: rest)))
            = per_item f 0 (item :: rest)).
    rewrite !Happ, Hstatic, Hdevice. cbn [app].
    exact (loop_reads w i read f Happ Hitem (item :: rest) 0 _ H).
Qed.

(** ** Numbering *)

Definition expander_places (t : list event) : list (nat * bool) :=
  map (fun x => (fst (fst x), snd x)) (expanders t).

Lemma per_item_places (idx : nat) (items : list pyval) :
  per_item (fun k _ => [(k + 1, Nat.eqb k 0)]) idx items
  = map (fun k => (k + 1, Nat.eqb k 0)) (seq idx (length items)).
Proof.
  revert idx. induction items as [|item rest IH]; intros idx; simpl;
    [reflexivity|]. now rewrite IH.
Qed.

(** X8. A results section that renders shows one expander per result,
    labelled Text #1, Text #2, ... in the order of the results, and only
    the first of them is open. *)
Theorem expanders_are_numbered_first_open
  (w : world) (i : widgets) (s : session) (items : list pyval) :
  infer_results s = PList items ->
  fst (results_section w i s) = Ok tt ->
  expander_places (snd (results_section w i s))
  = map (fun k => (k + 1, Nat.eqb k 0)) (seq 0 (length items)).
Proof.
  intros Hres Hok. rewrite <- per_item_places.
  apply (section_reads w i s expander_places _ items); try assumption.
  - intros a b. unfold expander_places. now rewrite expanders_app, map_app.
  - reflexivity.
  - reflexivity.
  - intros idx type_order item c H.
    destruct (render_item_ok _ _ _ _ _ _ H)
      as (d & sm & top_label & severity & scores & flag & label & -> & _
          & _ & _ & _ & _ & _ & _ & _ & _ & Htrace).
    unfold expander_places. rewrite Htrace, !expanders_app.
    rewrite (proj1 (score_table_plain _ _)), (proj1 (item_middle_plain _ _)).
    rewrite (mitigation_no_expanders _ (only_run_rewrite _ _ _ _ _ _)).
    reflexivity.
Qed.

(** ** Calls to /v1/mitigate *)

(** The text of a result, as the loop body reads it. *)
Definition item_text (item : pyval) : pyval :=
  match item with
  | PDict d => dict_get d "text" (PStr "")
  | _ => PNone
  end.

Definition no_post (e : event) : bool :=
  match e with
  | POST_mitigate _ => false
  | _ => true
  end.

Lemma no_post_mitigate_calls (t : list event) :
  forallb no_post t = true -> mitigate_calls t = [].
Proof.
  induction t as [|e t IH]; simpl; [reflexivity|].
  rewrite andb_true_iff. intros [He Ht].
  destruct e; simpl in *; auto; discriminate.
Qed.

Lemma no_post_render_mitigation (w : world) idx severity top_label mit :
  only no_post (render_mitigation w idx severity top_label mit).
Proof. unfold render_mitigation, voice. repeat only_step. Qed.

Lemma run_rewrite_mitigate_calls (w : world) (i : widgets) idx text
  severity top_label :
  mitigate_calls (snd (run_rewrite w i idx text severity top_label))
  = if rewrite_button i idx then [text] else [].
Proof.
  unfold run_rewrite. rewrite snd_bind. cbn [fst snd emit app mitigate_calls].
  destruct (rewrite_button i idx); [|reflexivity].
  repeat (rewrite snd_bind; cbn [fst snd emit app mitigate_calls]).
  f_equal. destruct (call_mitigate w idx text) as [mit|e]; [|reflexivity].
  apply no_post_mitigate_calls, no_post_render_mitigation.
Qed.

(** X9. A results section that renders sends one request to
    /v1/mitigate for each result whose Run Rewrite button is pressed, in
    the order of the results, each carrying the text of its own result
    (the empty string when the result has no text); a result whose
    button is not pressed sends none. *)
Theorem one_mitigate_call_per_pressed_result
  (w : world) (i : widgets) (s : session) (items : list pyval) :
  infer_results s = PList items ->
  fst (results_section w i s) = Ok tt ->
  mitigate_calls (snd (results_section w i s))
  = per_item (fun idx item =>
                if rewrite_button i idx then [item_text item] else [])
      0 items.
Proof.
  intros Hres Hok.
  apply (section_reads w i s mitigate_calls _ items); try assumption.
  - apply mitigate_calls_app.
  - reflexivity.
  - reflexivity.
  - intros idx type_order item c H.
    destruct (render_item_ok _ _ _ _ _ _ H)
      as (d & sm & top_label & severity & scores & flag & label & -> & _
          & _ & _ & _ & _ & _ & _ & _ & _ & Htrace).
    rewrite Htrace, !mitigate_calls_app.
    rewrite (proj1 (proj2 (score_table_plain _ _))).
    rewrite (proj1 (proj2 (item_middle_plain _ _))).
    rewrite run_rewrite_mitigate_calls. reflexivity.
Qed.

End Results.

Section Failures.

Context {F : PyFloat}.

(** ** What the outcome of a result depends on *)

Lemma fst_if_emit (b : bool) (x y : event) :
  fst (if b then emit x else emit y) = Ok tt.
Proof. now destruct b. Qed.

(** Up to the Run Rewrite handler a result is rendered from the stored
    values alone: two runs agree on the outcome of a result as soon as
    their handlers do. *)
Lemma render_item_outcome (w w' : world) (i i' : widgets) idx type_order item :
  (forall text severity top_label,
      fst (run_rewrite w i idx text severity top_label)
      = fst (run_rewrite w' i' idx text severity top_label)) ->
  fst (render_item w i idx type_order item)
  = fst (render_item w' i' idx type_order item).
Proof.
  intros Hrw. unfold render_item.
  repeat (rewrite !fst_bind; cbn [fst lift emit ret]; rewrite ?fst_if_emit;
          try match goal with
              | |- match ?r with Ok _ => _ | Raise _ => _ end = _ =>
                  destruct r; [|reflexivity]
              end).
  now rewrite Hrw.
Qed.

Lemma run_rewrite_unpressed (w : world) (i : widgets) idx text severity
  top_label :
  rewrite_button i idx = false ->
  run_rewrite w i idx text severity top_label
  = (Ok tt, [st_button_run_rewrite idx]).
Proof. intros H. unfold run_rewrite. now rewrite H. Qed.

Lemma run_rewrite_failed (w : world) (i : widgets) idx text severity
  top_label e :
  rewrite_button i idx = true ->
  call_mitigate w idx text = Raise e ->
  run_rewrite w i idx text severity top_label
  = (Ok tt, [st_button_run_rewrite idx; st_static debug_rewrite_handler;
             st_spinner "Calling /v1/mitigate..."; POST_mitigate text;
             st_error_mitigate e]).
Proof. intros H He. unfold run_rewrite. now rewrite H, He. Qed.

(** ** A failing /v1/mitigate call *)

(** X10. A /v1/mitigate call that raises is contained in its handler:
    the result is rendered with the same outcome as when its button is
    not pressed, the error message is shown, and neither a severity badge
    nor a speech request follows. *)
Theorem failed_mitigate_call_is_contained
  (w : world) (i i0 : widgets) (idx : nat) (type_order : pyval) (d : dict)
  (cats : pyval) (e : exn) :
  rewrite_button i idx = true ->
  rewrite_button i0 idx = false ->
  call_mitigate w idx (dict_get d "text" (PStr "")) = Raise e ->
  fst (render_item w i0 idx type_order (PDict d)) = Ok cats ->
  let t := snd (render_item w i idx type_order (PDict d)) in
  fst (render_item w i idx type_order (PDict d)) = Ok cats /\
  In (st_error_mitigate e) t /\
  speech_calls t = [] /\
  (forall c l p, ~ In (severity_badge c l p) t).
Proof.
  intros Hi Hi0 He H0 t. subst t.
  assert (H : fst (render_item w i idx type_order (PDict d)) = Ok cats).
  { destruct (render_item_ok _ _ _ _ _ _ H0)
      as (d' & sm & top_label & severity & scores & flag & label & E & Esm
          & Etop & Esev & Ecats & Escores & Eflag & Elabel & Et & _ & _).
    injection E as <-.
    rewrite (render_item_run w i idx type_order d _ _ _ _ _ _ _
               Esm Etop Esev Ecats Escores Eflag Elabel).
    cbn [fst]. rewrite Et, (run_rewrite_failed _ _ _ _ _ _ e Hi He).
    reflexivity. }
  split; [exact H|].
  destruct (render_item_ok _ _ _ _ _ _ H)
    as (d' & sm & top_label & severity & scores & flag & label & E & _ & _
        & _ & _ & _ & _ & _ & _ & _ & Htrace).
  injection E as <-. rewrite Htrace.
  rewrite (run_rewrite_failed _ _ _ _ _ _ e Hi He). cbn [snd].
  split; [|split].
  - rewrite !in_app_iff. right; right; right. simpl; auto 6.
  - rewrite !speech_calls_app.
    rewrite (proj2 (proj2 (score_table_plain _ _))).
    rewrite (proj2 (proj2 (item_middle_plain _ _))). reflexivity.
  - intros c l p. rewrite !in_app_iff. intros [Hin|[Hin|[Hin|Hin]]].
    + simpl in Hin.
      repeat (destruct Hin as [Hin|Hin]; [discriminate|]). destruct Hin.
    + rewrite score_table_run in Hin.
      destruct (py_truthy cats);
        [destruct (py_iter cats) as [l'|];
         [destruct (map_res (score_of scores) l')|]|];
        simpl in Hin;
        repeat (destruct Hin as [Hin|Hin]; [discriminate|]); destruct Hin.
    + unfold item_middle in Hin. destruct (load_logo w); simpl in Hin;
        repeat (destruct Hin as [Hin|Hin]; [discriminate|]); destruct Hin.
    + simpl in Hin.
      repeat (destruct Hin as [Hin|Hin]; [discriminate|]). destruct Hin.
Qed.

(** ** A failing speech request *)

(** X11. A speech request that raises does not stop the mitigation
    panel: the request is followed by the voice error and then by the
    closing sentence of the panel, no audio player is shown, and the
    panel renders whatever the speech service does. *)
Theorem failed_speech_is_contained
  (w : world) (idx : nat) (severity top_label : pyval) (mit : dict)
  (e : exn) :
  let spoken := py_or (dict_get mit "rewritten" PNone)
                  (dict_get mit "advisory" (PStr "")) in
  fst (render_mitigation w idx severity top_label mit) = Ok tt ->
  py_truthy spoken = true ->
  synthesize w idx spoken = Raise e ->
  let t := snd (render_mitigation w idx severity top_label mit) in
  (exists before sentence,
      t = before ++ [gTTS spoken; st_error_voice e;
                     mode_explanation sentence]) /\
  ~ In st_audio t /\
  (forall w' : world,
      fst (render_mitigation w' idx severity top_label mit) = Ok tt).
Proof.
  intros spoken Hok Hs He t. subst t.
  destruct (render_mitigation_ok _ _ _ _ _ Hok)
    as (sev & color & primary_cat & Hsev & _ & Hmeta & Ht).
  split; [|split].
  - rewrite Ht. unfold panel. rewrite voice_trace. fold spoken.
    rewrite Hs, He. cbn [snd].
    eexists. eexists. rewrite !app_assoc.
    change [st_static hear_header; st_static generating_audio_caption;
            gTTS spoken; st_error_voice e]
      with ([st_static hear_header; st_static generating_audio_caption]
            ++ [gTTS spoken; st_error_voice e]).
    rewrite !app_assoc. rewrite <- app_assoc. reflexivity.
  - rewrite Ht. unfold panel. rewrite voice_trace. fold spoken.
    rewrite Hs, He. cbn [snd]. rewrite !in_app_iff. simpl.
    destruct (py_truthy (dict_get mit "advisory" (PStr ""))),
      (py_truthy (dict_get mit "rewritten" PNone)); simpl;
      intros H;
      repeat match goal with
             | H : _ \/ _ |- _ => destruct H as [H|H]
             | H : False |- _ => destruct H
             | H : _ = st_audio |- _ => discriminate H
             end.
  - intros w'. exact (render_mitigation_total w' idx _ _ _ _ _ Hsev Hmeta).
Qed.

(** ** The severity of a mitigation answer *)

(** X13. The severity shown in the badge falls back to the result's
    severity only when the answer has no severity key.  An answer whose
    severity is present but not a string (null, say) is not rescued by
    the fallback: the handler raises AttributeError before anything of
    the panel is shown. *)
Theorem severity_fallback_is_for_missing_key_only
  (w : world) (idx : nat) (severity top_label : pyval) (mit : dict) :
  (dict_lookup "severity" mit = None ->
   forall c l p,
     In (severity_badge c l p)
        (snd (render_mitigation w idx severity top_label mit)) ->
     severity = PStr l) /\
  (forall v,
     dict_lookup "severity" mit = Some v ->
     is_str v = false ->
     render_mitigation w idx severity top_label mit
     = (Raise AttributeError, [])).
Proof.
  split.
  - intros Hnone c l p Hin.
    apply badge_shown_is_for_severity in Hin. destruct Hin as [Hs _].
    unfold dict_get in Hs. now rewrite Hnone in Hs.
  - intros v Hv Hstr. unfold render_mitigation.
    assert (Hs : dict_get mit "severity" severity = v)
      by (unfold dict_get; now rewrite Hv).
    rewrite Hs.
    destruct (py_or (dict_get mit "meta" (PDict [])) (PDict []));
      destruct v; try discriminate Hstr; reflexivity.
Qed.

End Failures.

Section Scores.

Context {F : PyFloat}.

(** ** Where a score comes from *)

(** [float(mapping.get(c, 0.0))] *)
Definition score_from (mapping : pyval) (c : str) : res pyfloat :=
  match py_get mapping (PStr c) (PFloat fzero) with
  | Ok v => py_float v
  | Raise e => Raise e
  end.

Lemma aligned_set_keeps (k k' : pyval) (x : pyfloat)
  (m : list (pyval * pyfloat)) :
  aligned_lookup k m <> None -> aligned_lookup k (aligned_set k' x m) <> None.
Proof.
  induction m as [|[k0 x0] r IH]; simpl; [congruence|].
  destruct (key_eqb k0 k') eqn:E'; simpl;
    destruct (key_eqb k0 k); auto; discriminate.
Qed.

Lemma aligned_set_adds (c : str) (x : pyfloat) (m : list (pyval * pyfloat)) :
  aligned_lookup (PStr c) (aligned_set (PStr c) x m) <> None.
Proof.
  induction m as [|[k0 x0] r IH]; simpl.
  - unfold str_eqb. destruct (list_eq_dec N.eq_dec c c); congruence.
  - destruct (key_eqb k0 (PStr c)) eqn:E; simpl; rewrite E;
      [discriminate | exact IH].
Qed.

Lemma align_scores_present (raw : pyval) (cats : list pyval) (c : str) :
  forall acc m,
    align_scores raw cats acc = Ok m ->
    In (PStr c) cats \/ aligned_lookup (PStr c) acc <> None ->
    aligned_lookup (PStr c) m <> None.
Proof.
  induction cats as [|cat r IH]; simpl; intros acc m H Hc.
  - injection H as <-. destruct Hc as [[]|Hc]; exact Hc.
  - destruct (py_get raw cat (PFloat fzero)) as [v|]; [|discriminate].
    destruct (py_float v) as [x|]; [|discriminate].
    apply (IH _ _ H). destruct Hc as [[->|Hc]|Hc].
    + right. apply aligned_set_adds.
    + now left.
    + right. now apply aligned_set_keeps.
Qed.

(** X12. The scores of a table come from one mapping only.  When the
    result has a non-empty scores_ordered, every row shows
    float(scores_ordered.get(category, 0.0)) and the raw scores are not
    consulted, so a category that only the raw scores know is shown as
    0.0; otherwise every row shows float(scores.get(category, 0.0)). *)
Theorem table_scores_come_from_one_mapping
  (w : world) (i : widgets) (idx : nat) (type_order : pyval) (d : dict)
  (cats : list pyval) :
  fst (render_item w i idx type_order (PDict d)) = Ok (PList cats) ->
  forall table c x,
    In table (dataframes (snd (render_item w i idx type_order (PDict d)))) ->
    In (PStr c, x) (table_rows (fst table) (snd table)) ->
    (py_truthy (dict_get d "scores_ordered" PNone) = true ->
     score_from (dict_get d "scores_ordered" PNone) c = Ok x) /\
    (py_truthy (dict_get d "scores_ordered" PNone) = false ->
     score_from (raw_scores d) c = Ok x).
Proof.
  intros H table c x Htable Hrow.
  destruct (render_item_ok _ _ _ _ _ _ H)
    as (d' & sm & top_label & severity & scores & flag & label & E & _ & _
        & _ & _ & Hs & _ & _ & Ht & _ & Htrace).
  injection E as <-.
  rewrite Htrace, !dataframes_app in Htable.
  rewrite (no_dataframes_in_mitigation _ (only_run_rewrite _ _ _ _ _ _))
    in Htable.
  assert (Hmid : dataframes (item_middle w d) = [])
    by (unfold item_middle; now destruct (load_logo w)).
  rewrite Hmid, app_nil_r in Htable. cbn [item_head dataframes app] in Htable.
  rewrite score_table_run in Ht, Htable.
  destruct (py_truthy (PList cats)) eqn:Hne; [|destruct Htable].
  cbn [py_iter] in Ht, Htable.
  destruct (map_res (score_of scores) cats) as [score|] eqn:Em;
    [|discriminate Ht].
  destruct Htable as [<-|[]]. cbn [fst snd table_rows] in Hrow.
  apply map_res_Forall2, Forall2_combine in Em. destruct Em as [_ Hin].
  pose proof (Hin _ _ Hrow) as Hx. apply in_combine_l in Hrow.
  unfold scores_for in Hs. unfold given_scores, py_or in Hs.
  destruct (py_truthy (dict_get d "scores_ordered" PNone)) eqn:Eso.
  - rewrite Eso in Hs. cbn [negb andb] in Hs. injection Hs as <-.
    split; [intros _; exact Hx | discriminate].
  - change (py_truthy (PDict [])) with false in Hs. rewrite Hne in Hs.
    cbn [negb andb py_iter] in Hs.
    destruct (align_scores (raw_scores d) cats []) as [m|] eqn:Ea;
      [|discriminate Hs].
    injection Hs as <-. split; [discriminate|]. intros _.
    cbn [score_of hashable] in Hx.
    pose proof (align_scores_present _ _ c _ _ Ea (or_introl Hrow)) as Hp.
    destruct (aligned_lookup (PStr c) m) as [y|] eqn:El; [|congruence].
    injection Hx as <-.
    destruct (aligned_lookup_In _ _ _ El) as (k & Hk & Ek).
    apply key_eqb_str in Ek.
    assert (Hm : entries_from (raw_scores d) m).
    { apply (align_scores_from _ _ _ _ Ea). intros ? ? ? []. }
    destruct (Hm k y c Hk Ek) as (v & Hv & Hy).
    unfold score_from. now rewrite Hv.
Qed.

End Scores.

Section Reloads.

Context {F : PyFloat}.

(** ** The outcome of a run *)

Lemma script_outcome (w : world) (i : widgets) (prev : option session) :
  fst (fst (script w i prev)) =
    match fst (results_section w i
                 (fst (analyze w i (fst (sidebar w (init_session prev))))))
    with
    | Ok _ => Ok tt
    | Raise e => Raise e
    end.
Proof.
  unfold script.
  destruct (sidebar w (init_session prev)) as [s1 side]. cbn [fst].
  destruct (analyze w i s1) as [s2 input]. cbn [fst].
  now destruct (results_section w i s2) as [[u|e] shown].
Qed.

Lemma results_loop_outcome (w w' : world) (i i' : widgets) items :
  (forall idx, rewrite_button i idx = false) ->
  (forall idx, rewrite_button i' idx = false) ->
  forall idx type_order,
    fst (results_loop w i idx type_order items)
    = fst (results_loop w' i' idx type_order items).
Proof.
  intros Hi Hi'. induction items as [|item rest IH]; intros idx type_order;
    simpl; [reflexivity|].
  rewrite !fst_bind.
  rewrite (render_item_outcome w w' i i' idx type_order item).
  - destruct (fst (render_item w' i' idx type_order item)); [apply IH|].
    reflexivity.
  - intros text severity top_label.
    now rewrite !run_rewrite_unpressed.
Qed.

Lemma results_section_outcome (w w' : world) (i i' : widgets)
  (s s' : session) :
  (forall idx, rewrite_button i idx = false) ->
  (forall idx, rewrite_button i' idx = false) ->
  infer_results s = infer_results s' ->
  type_order s = type_order s' ->
  fst (results_section w i s) = fst (results_section w' i' s').
Proof.
  intros Hi Hi' Hr Ht. unfold results_section. rewrite Hr, Ht.
  destruct (py_truthy (infer_results s')); [|reflexivity].
  repeat (rewrite !fst_bind; cbn [fst lift emit]).
  destruct (py_iter (infer_results s')); [|reflexivity].
  now apply results_loop_outcome.
Qed.

(** X14. What a run stores decides how the page renders from then on.
    With no Run Rewrite button pressed, a reload has the same outcome as
    the run that left the session, whatever the outside world answers in
    the meantime: results that made rendering raise keep raising on
    every reload until a new Analyze replaces them. *)
Theorem reload_repeats_the_outcome
  (w w' : world) (i i' : widgets) (prev : option session) :
  (forall idx, rewrite_button i idx = false) ->
  (forall idx, rewrite_button i' idx = false) ->
  run_button i' = false ->
  fst (fst (script w' i' (Some (snd (fst (script w i prev))))))
  = fst (fst (script w i prev)).
Proof.
  intros Hi Hi' Hrun. rewrite !script_outcome, script_session.
  cbn [init_session].
  set (s := fst (analyze w i (fst (sidebar w (init_session prev))))).
  rewrite (results_section_outcome w' w i' i
             (fst (analyze w' i' (fst (sidebar w' s)))) s Hi' Hi).
  - reflexivity.
  - unfold analyze. rewrite Hrun. cbn [fst].
    apply (sidebar_keeps w' s).
  - unfold analyze. rewrite Hrun. cbn [fst].
    apply (sidebar_keeps w' s).
Qed.

End Reloads.

(** * The helpers behind the outside world (lines 21-79) *)

Module Helpers.

Section Helpers.

Context {F : PyFloat}.

(** ** Config (lines 21-26) *)

(** [os.getenv("SOJEN_API_BASE", "http://127.0.0.1:8010")] *)
Definition API_BASE (SOJEN_API_BASE : option string) : string :=
  match SOJEN_API_BASE with
  | Some v => v
  | None => "http://127.0.0.1:8010"
  end.

Definition HEALTH_ENDPOINT (env : option string) : string :=
  String.append (API_BASE env) "/health".

Definition INFER_ENDPOINT (env : option string) : string :=
  String.append (API_BASE env) "/v1/infer".

Definition MITIGATE_ENDPOINT (env : option string) : string :=
  String.append (API_BASE env) "/v1/mitigate".

Definition LOGO_FILENAME : string := "JenAI-Moderator_CommIntell.png".

(** ** The requests library, as far as the helpers use it *)

(** A response: its status and what [resp.json()] gives, the decoded
    body (a dict, as the helpers annotate it) or the decoding error. *)
Record response : Type := {
  status_code : Z;
  json : res dict }.

(** [resp.raise_for_status()]: client and server error statuses raise. *)
Definition raise_for_status (resp : response) : res unit :=
  if ((400 <=? status_code resp) && (status_code resp <? 600))%Z
  then Raise (ServiceError "HTTPError")
  else Ok tt.

(** [requests.get(url, timeout=..)] and
    [requests.post(url, json=.., timeout=..)]: a response, or the
    exception of a failed connection or a timeout. *)
Record requests : Type := {
  get : string -> Z -> res response;
  post : string -> pyval -> Z -> res response }.

(** The tail shared by the three helpers:
    [resp.raise_for_status(); return resp.json()]. *)
Definition checked_json (sent : res response) : res dict :=
  match sent with
  | Raise e => Raise e
  | Ok resp =>
      match raise_for_status resp with
      | Raise e => Raise e
      | Ok _ => json resp
      end
  end.

(** ** The helpers (lines 50-79) *)

Definition call_health (rq : requests) (env : option string) : res dict :=
  checked_json (get rq (HEALTH_ENDPOINT env) 5).

Definition call_infer (rq : requests) (env : option string)
  (texts : list str) : res dict :=
  let payload := PDict [(lit "texts", PList (map PStr texts))] in
  checked_json (post rq (INFER_ENDPOINT env) payload 120).

Definition call_mitigate (rq : requests) (env : option string)
  (text : pyval) : res dict :=
  let payload := PDict [(lit "text", text)] in
  checked_json (post rq (MITIGATE_ENDPOINT env) payload 120).

(** ** The logo (lines 33-47) *)

(** The file system as [load_logo] meets it: [Path.exists] and
    [Image.open], which returns an image (not modelled) or raises. *)
Record files : Type := {
  path_exists : string -> bool;
  image_open : string -> res unit }.

Definition load_logo (fs : files) : option unit :=
  let img_path := String.append "assets/images/" LOGO_FILENAME in
  if path_exists fs img_path then
    match image_open fs img_path with
    | Ok img => Some img
    | Raise _ => None
    end
  else None.

End Helpers.

End Helpers.

Section Wiring.

Context {F : PyFloat}.

(** The world of a run, made of the helpers over a file system, an HTTP
    transport and a speech service. *)
Definition world_over (fs : Helpers.files) (rq : Helpers.requests)
  (env : option string) (speech : nat -> pyval -> res unit) : world := {|
  load_logo :=
    match Helpers.load_logo fs with Some _ => true | None => false end;
  call_health := Helpers.call_health rq env;
  call_infer := Helpers.call_infer rq env;
  call_mitigate := fun _ text => Helpers.call_mitigate rq env text;
  synthesize := speech |}.

Definition error_status (resp : Helpers.response) : Prop :=
  (400 <= Helpers.status_code resp < 600)%Z.

Lemma raise_for_status_error (resp : Helpers.response) :
  error_status resp ->
  Helpers.raise_for_status resp = Raise (ServiceError "HTTPError").
Proof.
  unfold error_status, Helpers.raise_for_status. intros [Hl Hu].
  apply Z.leb_le in Hl. apply Z.ltb_lt in Hu. now rewrite Hl, Hu.
Qed.

Lemma raise_for_status_fine (resp : Helpers.response) :
  ~ error_status resp -> Helpers.raise_for_status resp = Ok tt.
Proof.
  unfold error_status, Helpers.raise_for_status. intros H.
  destruct (400 <=? Helpers.status_code resp)%Z eqn:Hl;
    destruct (Helpers.status_code resp <? 600)%Z eqn:Hu; try reflexivity.
  exfalso. apply H. split; [now apply Z.leb_le | now apply Z.ltb_lt].
Qed.

(** X15. Analyze over HTTP.  The text goes out as one POST to
    {base}/v1/infer with body {"texts": [text]} and a timeout of 120
    seconds.  If the answer has a client or server error status, the
    error is shown and device, type_order and results stay as they were,
    even when the body of that answer is well-formed JSON; with any other
    status and a body that decodes, the three values of the body are
    stored. *)
Theorem analyze_over_http
  (fs : Helpers.files) (rq : Helpers.requests) (env : option string)
  (speech : nat -> pyval -> res unit)
  (i : widgets) (prev : option session) (resp : Helpers.response) :
  run_button i = true ->
  strip (text_single i) <> [] ->
  Helpers.post rq (Helpers.INFER_ENDPOINT env)
    (PDict [(lit "texts", PList [PStr (text_single i)])]) 120 = Ok resp ->
  let w := world_over fs rq env speech in
  let before := init_session prev in
  let after := snd (fst (script w i prev)) in
  (error_status resp ->
   In (st_error_infer (ServiceError "HTTPError")) (snd (script w i prev)) /\
   infer_results after = infer_results before /\
   type_order after = type_order before /\
   device after = device before) /\
  (~ error_status resp ->
   forall body,
     Helpers.json resp = Ok body ->
     infer_results after = dict_get body "results" (PList []) /\
     type_order after = dict_get body "type_order" (PList []) /\
     device after = dict_get body "device" (PStr "unknown")).
Proof.
  intros Hrun Htext Hpost w before after. subst before after.
  rewrite script_session.
  destruct (sidebar_keeps w (init_session prev)) as (Hr & Ht & Hd).
  assert (Hcall : call_infer w [text_single i]
                  = match Helpers.raise_for_status resp with
                    | Raise e => Raise e
                    | Ok _ => Helpers.json resp
                    end).
  { unfold w, world_over, Helpers.call_infer, Helpers.checked_json.
    cbn [call_infer map]. now rewrite Hpost. }
  split.
  - intros Herr. rewrite (raise_for_status_error _ Herr) in Hcall. split.
    + rewrite script_trace. cbv zeta. rewrite !in_app_iff.
      right; right; left. unfold analyze.
      rewrite Hrun, texts_nonblank, Hcall by assumption. simpl. auto 10.
    + unfold analyze.
      rewrite Hrun, texts_nonblank, Hcall by assumption. simpl. auto.
  - intros Hfine body Hbody.
    rewrite (raise_for_status_fine _ Hfine), Hbody in Hcall.
    unfold analyze.
    rewrite Hrun, texts_nonblank, Hcall by assumption. simpl. auto.
Qed.

Lemma offline_sidebar_badges (w : world) (s : session) (e : exn) :
  call_health w = Raise e -> device_badges (snd (sidebar w s)) = [].
Proof.
  intros H. rewrite (sidebar_offline w s e H). cbn [snd].
  now destruct (load_logo w).
Qed.

(** X16. The health check over HTTP is one GET of {base}/health with a
    timeout of 5 seconds.  An answer with a client or server error
    status counts as a failed check even when its body names a device:
    the failure message is shown, no device badge appears and the stored
    backend_device is left alone. *)
Theorem health_check_over_http
  (fs : Helpers.files) (rq : Helpers.requests) (env : option string)
  (speech : nat -> pyval -> res unit)
  (i : widgets) (prev : option session) (resp : Helpers.response) :
  Helpers.get rq (Helpers.HEALTH_ENDPOINT env) 5 = Ok resp ->
  error_status resp ->
  let w := world_over fs rq env speech in
  let t := snd (script w i prev) in
  In (st_error_health (ServiceError "HTTPError")) t /\
  device_badges t = [] /\
  backend_device (snd (fst (script w i prev)))
  = backend_device (init_session prev).
Proof.
  intros Hget Herr w t. subst t.
  assert (Hcall : call_health w = Raise (ServiceError "HTTPError")).
  { unfold w, world_over, Helpers.call_health, Helpers.checked_json.
    cbn [call_health].
    now rewrite Hget, (raise_for_status_error _ Herr). }
  split; [|split].
  - rewrite script_trace. cbv zeta. apply in_or_app. left.
    rewrite (sidebar_offline w _ _ Hcall). cbn [snd].
    apply in_or_app. right. simpl. auto 6.
  - rewrite script_trace. cbv zeta.
    rewrite !device_badges_app, (offline_sidebar_badges w _ _ Hcall).
    rewrite page_head_no_badges.
    rewrite (proj2 (analyze_no_indicators _ _ _)).
    rewrite (proj2 (below_no_indicators _ (only_results_section _ _ _))).
    now rewrite (proj2 (proj2 (foot_quiet _))).
  - pose proof (session_backend_device w i prev) as Hb.
    rewrite Hb, Hcall. reflexivity.
Qed.

(** X17. Run Rewrite over HTTP.  The text of the result goes out as one
    POST to {base}/v1/mitigate with body {"text": text} and a timeout of
    120 seconds.  If the answer has a client or server error status the
    handler shows the error and nothing else, even when the body of that
    answer is a well-formed mitigation; with any other status and a body
    that decodes, the handler goes on to render that body. *)
Theorem run_rewrite_over_http
  (fs : Helpers.files) (rq : Helpers.requests) (env : option string)
  (speech : nat -> pyval -> res unit)
  (i : widgets) (idx : nat) (text severity top_label : pyval)
  (resp : Helpers.response) :
  rewrite_button i idx = true ->
  Helpers.post rq (Helpers.MITIGATE_ENDPOINT env)
    (PDict [(lit "text", text)]) 120 = Ok resp ->
  let w := world_over fs rq env speech in
  let handler :=
    [st_button_run_rewrite idx; st_static debug_rewrite_handler;
     st_spinner "Calling /v1/mitigate..."; POST_mitigate text] in
  (error_status resp ->
   run_rewrite w i idx text severity top_label
   = (Ok tt, handler ++ [st_error_mitigate (ServiceError "HTTPError")])) /\
  (~ error_status resp ->
   forall body,
     Helpers.json resp = Ok body ->
     run_rewrite w i idx text severity top_label
     = (fst (render_mitigation w idx severity top_label body),
        handler ++ snd (render_mitigation w idx severity top_label body))).
Proof.
  intros Hi Hpost w handler. subst handler.
  assert (Hcall : call_mitigate w idx text
                  = match Helpers.raise_for_status resp with
                    | Raise e => Raise e
                    | Ok _ => Helpers.json resp
                    end).
  { unfold w, world_over, Helpers.call_mitigate, Helpers.checked_json.
    cbn [call_mitigate]. now rewrite Hpost. }
  split.
  - intros Herr. rewrite (raise_for_status_error _ Herr) in Hcall.
    now apply run_rewrite_failed.
  - intros Hfine body Hbody.
    rewrite (raise_for_status_fine _ Hfine), Hbody in Hcall.
    unfold run_rewrite. rewrite Hi, Hcall.
    destruct (render_mitigation w idx severity top_label body) as [r t].
    reflexivity.
Qed.

(** ** The logo *)







End Wiring.

(** * Concrete runs of the further properties *)

(** A speech service that is down. *)
Definition mute_world : @world binary64 := {|
  load_logo := true;
  call_health := Ok [entry "device" (PStr "cpu")];
  call_infer := fun _ => Ok demo_infer_answer;
  call_mitigate := fun _ _ => Ok demo_mitigate_answer;
  synthesize := fun _ _ => Raise (ServiceError "gTTSError") |}.

(** A backend whose /v1/infer answer holds a result that is no object. *)
Definition garbled_world : @world binary64 := {|
  load_logo := true;
  call_health := Ok [entry "device" (PStr "cpu")];
  call_infer := fun _ => Ok [entry "results" (PList [PStr "oops"])];
  call_mitigate := fun _ _ => Ok demo_mitigate_answer;
  synthesize := fun _ _ => Ok tt |}.

(** An answer whose severity is null. *)
Definition null_severity_answer : @dict binary64 :=
  [entry "mode" (PStr "rewrite");
   entry "severity" PNone;
   entry "rewritten" (PStr "Some drivers make mistakes.")].

(** A transport that answers the three endpoints of the default base
    URL with error statuses and well-formed bodies. *)
Definition failing_requests : @Helpers.requests binary64 := {|
  Helpers.get := fun url timeout =>
    if String.eqb url "http://127.0.0.1:8010/health" then
      Ok {| Helpers.status_code := 503;
            Helpers.json := Ok [entry "device" (PStr "cuda")] |}
    else Raise (ServiceError "ConnectionError");
  Helpers.post := fun url payload timeout =>
    if String.eqb url "http://127.0.0.1:8010/v1/infer" then
      Ok {| Helpers.status_code := 500;
            Helpers.json := Ok demo_infer_answer |}
    else if String.eqb url "http://127.0.0.1:8010/v1/mitigate" then
      Ok {| Helpers.status_code := 429;
            Helpers.json := Ok demo_mitigate_answer |}
    else Raise (ServiceError "ConnectionError") |}.

(** A checkout without the logo file. *)
Definition no_assets : Helpers.files := {|
  Helpers.path_exists := fun _ => false;
  Helpers.image_open := fun _ => Raise (ServiceError "FileNotFoundError") |}.

Definition silent_speech : nat -> @pyval binary64 -> res unit :=
  fun _ _ => Ok tt.

Lemma reload_only_checks_health_witness :
  outside_calls (snd (script demo_world idle (Some after_analysis)))
  = [GET_health].
Proof.
  exact (reload_only_checks_health demo_world idle (Some after_analysis)
           eq_refl (fun _ => eq_refl)).
Defined.

Lemma rerun_is_stable_witness :
  script demo_world idle (Some (snd (fst (script demo_world idle None))))
  = script demo_world idle None.
Proof. exact (rerun_is_stable demo_world idle None eq_refl). Defined.

Lemma health_answer_gives_one_badge_witness :
  In (st_success_api_ok
        (dict_get [entry "device" (PStr "cpu")] "device" (PStr "n/a")))
     (snd (script demo_world idle None)).
Proof.
  exact (proj1 (health_answer_gives_one_badge demo_world idle None
                  [entry "device" (PStr "cpu")] eq_refl)).
Defined.

Lemma demo_result_renders :
  fst (render_item demo_world idle 0 (PList demo_cats)
         (PDict demo_result_fields)) = Ok (PList demo_cats).
Proof. reflexivity. Qed.

Lemma expander_prefers_severity_meta_label_witness :
  exists sm sev_meta top,
    py_get (item_meta demo_result_fields) (PStr "severity_meta") (PDict [])
    = Ok sm /\
    py_or sm (PDict []) = PDict sev_meta /\
    expanders (snd (render_item demo_world idle 0 (PList demo_cats)
                      (PDict demo_result_fields)))
    = [(0 + 1, top, Nat.eqb 0 0)] /\
    (forall v, dict_lookup "top_label" sev_meta = Some v ->
               top = py_or v (PStr "none")) /\
    (dict_lookup "top_label" sev_meta = None ->
     top = py_or (dict_get demo_result_fields "top_label" PNone)
             (PStr "none")).
Proof.
  exact (expander_prefers_severity_meta_label demo_world idle 0
           (PList demo_cats) demo_result_fields (PList demo_cats)
           demo_result_renders).
Defined.

Lemma expanders_are_numbered_first_open_witness :
  expander_places (snd (results_section demo_world idle after_analysis))
  = map (fun k => (k + 1, Nat.eqb k 0)) (seq 0 (length [demo_result])).
Proof.
  exact (expanders_are_numbered_first_open demo_world idle after_analysis
           [demo_result] eq_refl after_analysis_renders).
Defined.

Lemma pressed_section_renders :
  fst (results_section demo_world press_rewrite after_analysis) = Ok tt.
Proof. reflexivity. Qed.

Lemma one_mitigate_call_per_pressed_result_witness :
  mitigate_calls (snd (results_section demo_world press_rewrite
                         after_analysis))
  = per_item (fun idx item =>
                if rewrite_button press_rewrite idx
                then [item_text item] else [])
      0 [demo_result].
Proof.
  exact (one_mitigate_call_per_pressed_result demo_world press_rewrite
           after_analysis [demo_result] eq_refl pressed_section_renders).
Defined.

Lemma offline_result_renders :
  fst (render_item offline_world idle 0 (PList demo_cats)
         (PDict demo_result_fields)) = Ok (PList demo_cats).
Proof. reflexivity. Qed.

Lemma failed_mitigate_call_is_contained_witness :
  fst (render_item offline_world press_rewrite 0 (PList demo_cats)
         (PDict demo_result_fields)) = Ok (PList demo_cats) /\
  In (st_error_mitigate (ServiceError "Connection refused"))
     (snd (render_item offline_world press_rewrite 0 (PList demo_cats)
             (PDict demo_result_fields))).
Proof.
  pose proof (failed_mitigate_call_is_contained offline_world press_rewrite
                idle 0 (PList demo_cats) demo_result_fields (PList demo_cats)
                (ServiceError "Connection refused")
                eq_refl eq_refl eq_refl offline_result_renders) as H.
  cbv zeta in H. exact (conj (proj1 H) (proj1 (proj2 H))).
Defined.

Lemma mute_answer_renders :
  fst (render_mitigation mute_world 0 (PStr "medium") (PStr "sexist")
         demo_mitigate_answer) = Ok tt.
Proof. reflexivity. Qed.

Lemma failed_speech_is_contained_witness :
  fst (render_mitigation mute_world 0 (PStr "medium") (PStr "sexist")
         demo_mitigate_answer) = Ok tt /\
  ~ In st_audio
      (snd (render_mitigation mute_world 0 (PStr "medium") (PStr "sexist")
              demo_mitigate_answer)).
Proof.
  exact (conj mute_answer_renders
           (proj1 (proj2 (failed_speech_is_contained mute_world 0
                            (PStr "medium") (PStr "sexist")
                            demo_mitigate_answer (ServiceError "gTTSError")
                            mute_answer_renders eq_refl eq_refl)))).
Defined.

Lemma table_scores_come_from_one_mapping_witness :
  score_from (raw_scores demo_result_fields) "sexist" = Ok 0.75%float.
Proof.
  refine (proj2 (table_scores_come_from_one_mapping demo_world idle 0
                   (PList demo_cats) demo_result_fields demo_cats
                   demo_result_renders
                   (PList demo_cats, [0.125; 0.75; 0]%float)
                   (lit "sexist") 0.75%float _ _) eq_refl).
  - left. reflexivity.
  - right. left. reflexivity.
Defined.

Lemma severity_fallback_is_for_missing_key_only_witness :
  render_mitigation demo_world 0 (PStr "medium") (PStr "sexist")
    null_severity_answer
  = (Raise AttributeError, []).
Proof.
  exact (proj2 (severity_fallback_is_for_missing_key_only demo_world 0
                  (PStr "medium") (PStr "sexist") null_severity_answer)
           PNone eq_refl eq_refl).
Defined.

(** The garbled answer makes the Analyze run raise, and every reload
    after it. *)
Example garbled_run_raises :
  fst (fst (script garbled_world press_analyze None)) = Raise AttributeError.
Proof. reflexivity. Qed.

Lemma reload_repeats_the_outcome_witness :
  fst (fst (script demo_world idle
              (Some (snd (fst (script garbled_world press_analyze None))))))
  = fst (fst (script garbled_world press_analyze None)).
Proof.
  exact (reload_repeats_the_outcome garbled_world demo_world press_analyze
           idle None (fun _ => eq_refl) (fun _ => eq_refl) eq_refl).
Defined.

Lemma server_error : error_status
  {| Helpers.status_code := 500;
     Helpers.json := Ok demo_infer_answer |}.
Proof. unfold error_status. simpl. lia. Qed.

Lemma analyze_over_http_witness :
  In (st_error_infer (ServiceError "HTTPError"))
     (snd (script (world_over no_assets failing_requests None silent_speech)
             press_analyze None)).
Proof.
  exact (proj1 (proj1 (analyze_over_http no_assets failing_requests None
                         silent_speech press_analyze None
                         {| Helpers.status_code := 500;
                            Helpers.json := Ok demo_infer_answer |}
                         eq_refl demo_text_not_blank eq_refl)
                  server_error)).
Defined.

Lemma service_unavailable : error_status
  {| Helpers.status_code := 503;
     Helpers.json := Ok [entry "device" (PStr "cuda")] |}.
Proof. unfold error_status. simpl. lia. Qed.

Lemma health_check_over_http_witness :
  device_badges
    (snd (script (world_over no_assets failing_requests None silent_speech)
            idle None)) = [].
Proof.
  exact (proj1 (proj2 (health_check_over_http no_assets failing_requests None
                         silent_speech idle None
                         {| Helpers.status_code := 503;
                            Helpers.json :=
                              Ok [entry "device" (PStr "cuda")] |}
                         eq_refl service_unavailable))).
Defined.

Lemma too_many_requests : error_status
  {| Helpers.status_code := 429;
     Helpers.json := Ok demo_mitigate_answer |}.
Proof. unfold error_status. simpl. lia. Qed.

Lemma run_rewrite_over_http_witness :
  run_rewrite (world_over no_assets failing_requests None silent_speech)
    press_rewrite 0 (PStr demo_text) (PStr "medium") (PStr "sexist")
  = (Ok tt,
     [st_button_run_rewrite 0; st_static debug_rewrite_handler;
      st_spinner "Calling /v1/mitigate..."; POST_mitigate (PStr demo_text)]
     ++ [st_error_mitigate (ServiceError "HTTPError")]).
Proof.
  exact (proj1 (run_rewrite_over_http no_assets failing_requests None
                  silent_speech press_rewrite 0 (PStr demo_text)
                  (PStr "medium") (PStr "sexist")
                  {| Helpers.status_code := 429;
                     Helpers.json := Ok demo_mitigate_answer |}
                  eq_refl eq_refl)
           too_many_requests).
Defined.

